(** * rendering.py: colours, coordinates, lines and rectangles

    A shallow embedding of [src/rendering.py].  Python values are modelled
    as the program uses them: integers as [Z], floats as IEEE binary64
    primitive floats, tuples and lists as [list], strings as [string],
    exceptions as an error type, and the calls made into the window library
    as a list of drawing commands.  Coordinates are Python numbers, [int]
    or [float], as the constructor of [Coordinate] accepts them. *)

From Stdlib Require Import ZArith List Bool Lia String Ascii.
From Stdlib Require Import PrimFloat SpecFloat FloatOps.
Import ListNotations.
Open Scope Z_scope.

(** ** Python exceptions and results *)

Inductive exn : Type :=
| ValueError
| TypeError
| ZeroDivisionError
| OverflowError
| ArgumentError.

Inductive result (A : Type) : Type :=
| Ok (a : A)
| Raise (e : exn).
Arguments Ok {A} a.
Arguments Raise {A} e.

Definition bind {A B : Type} (m : result A) (f : A -> result B) : result B :=
  match m with
  | Ok a => f a
  | Raise e => Raise e
  end.

Notation "x <- m ;; k" := (bind m (fun x => k))
  (at level 61, m at next level, right associativity).

(** ** Python numbers

    [Int] is a Python [int], [Flt] a Python [float]. *)

Inductive num : Type :=
| Int (z : Z)
| Flt (f : float).

(** [isinstance(v, int)] *)
Definition isinstance_int (v : num) : bool :=
  match v with
  | Int _ => true
  | Flt _ => false
  end.

(** An integer as an exact (unrounded) binary value. *)
Definition Z2SF (z : Z) : spec_float :=
  match z with
  | Z0 => S754_zero false
  | Zpos p => S754_finite false p 0
  | Zneg p => S754_finite true p 0
  end.

(** The float nearest to an integer (ties to even); exact below 2^53, so
    exact on the constants 0, 1 and 255 the program compares with. *)
Definition float_of_const (z : Z) : float :=
  SF2Prim (binary_normalize prec emax z 0 false).

(** Conversion of an [int] operand to [float] in mixed arithmetic:
    [OverflowError] when out of the float range. *)
Definition float_of_int (z : Z) : result float :=
  let f := float_of_const z in
  if is_infinity f then Raise OverflowError else Ok f.

(** [a / b] on two [int]s: the correctly rounded quotient. *)
Definition int_truediv (a b : Z) : result float :=
  if b =? 0 then Raise ZeroDivisionError
  else
    let f := SF2Prim (SFdiv prec emax (Z2SF a) (Z2SF b)) in
    if is_infinity f then Raise OverflowError else Ok f.

(** [v > k], [v < k] and [v <= k] for a small [int] constant [k]. *)
Definition num_gt (v : num) (k : Z) : bool :=
  match v with
  | Int z => k <? z
  | Flt f => PrimFloat.ltb (float_of_const k) f
  end.

Definition num_lt (v : num) (k : Z) : bool :=
  match v with
  | Int z => z <? k
  | Flt f => PrimFloat.ltb f (float_of_const k)
  end.

Definition num_le (v : num) (k : Z) : bool :=
  match v with
  | Int z => z <=? k
  | Flt f => PrimFloat.leb f (float_of_const k)
  end.

(** [v << k] and [z | v]: defined on [int]s only. *)
Definition py_lshift (v : num) (k : Z) : result Z :=
  match v with
  | Int z => Ok (Z.shiftl z k)
  | Flt _ => Raise TypeError
  end.

Definition py_or (z : Z) (v : num) : result Z :=
  match v with
  | Int z' => Ok (Z.lor z z')
  | Flt _ => Raise TypeError
  end.

(** Binary arithmetic.  On two [int]s it is exact; otherwise the [int]
    operand is converted to [float] and the operation is the float one. *)
Definition as_float (v : num) : result float :=
  match v with
  | Int z => float_of_int z
  | Flt f => Ok f
  end.

Definition num_add (a b : num) : result num :=
  match a, b with
  | Int x, Int y => Ok (Int (x + y))
  | _, _ => fa <- as_float a ;; fb <- as_float b ;; Ok (Flt (fa + fb))
  end.

Definition num_sub (a b : num) : result num :=
  match a, b with
  | Int x, Int y => Ok (Int (x - y))
  | _, _ => fa <- as_float a ;; fb <- as_float b ;; Ok (Flt (fa - fb))
  end.

Definition num_mul (a b : num) : result num :=
  match a, b with
  | Int x, Int y => Ok (Int (x * y))
  | _, _ => fa <- as_float a ;; fb <- as_float b ;; Ok (Flt (fa * fb))
  end.

(** [a / b]: always a float; a zero divisor, [0], [0.0] or [-0.0], raises
    [ZeroDivisionError]. *)
Definition num_truediv (a b : num) : result float :=
  match a, b with
  | Int x, Int y => int_truediv x y
  | _, _ =>
      fa <- as_float a ;;
      fb <- as_float b ;;
      if PrimFloat.eqb fb 0 then Raise ZeroDivisionError else Ok (fa / fb)%float
  end.

(** [-v] and [abs(v)] *)
Definition num_neg (v : num) : num :=
  match v with
  | Int z => Int (- z)
  | Flt f => Flt (- f)
  end.

Definition num_abs (v : num) : num :=
  match v with
  | Int z => Int (Z.abs z)
  | Flt f => Flt (PrimFloat.abs f)
  end.

(** Comparison of a float with an [int]: exact, on the value of the
    float; [None] for a NaN, which compares false with everything. *)
Definition float_cmp_int (f : float) (z : Z) : option comparison :=
  match Prim2SF f with
  | S754_nan => None
  | S754_infinity s => Some (if s then Lt else Gt)
  | S754_zero _ => Some (0 ?= z)
  | S754_finite s m e =>
      let v := if s then Z.neg m else Z.pos m in
      match e with
      | Zneg p => Some (v ?= z * Z.pow_pos 2 p)
      | _ => Some (v * 2 ^ e ?= z)
      end
  end.

Definition num_cmp (a b : num) : option comparison :=
  match a, b with
  | Int x, Int y => Some (x ?= y)
  | Flt f, Int y => float_cmp_int f y
  | Int x, Flt g => option_map CompOpp (float_cmp_int g x)
  | Flt f, Flt g =>
      match PrimFloat.compare f g with
      | FEq => Some Eq
      | FLt => Some Lt
      | FGt => Some Gt
      | FNotComparable => None
      end
  end.

(** [a < b] and [a == b] *)
Definition num_ltb (a b : num) : bool :=
  match num_cmp a b with
  | Some Lt => true
  | _ => false
  end.

Definition num_eqb (a b : num) : bool :=
  match num_cmp a b with
  | Some Eq => true
  | _ => false
  end.

(** An argument passed for a C [int] parameter: a Python [int] is taken,
    anything else is refused with [ctypes.ArgumentError]. *)
Definition c_int (v : num) : result Z :=
  match v with
  | Int z => Ok z
  | Flt _ => Raise ArgumentError
  end.

(** [round(f)] with one argument: the nearest integer, ties to even;
    [ValueError] on a NaN and [OverflowError] on an infinity. *)
Definition round_half_even (m : positive) (e : Z) : Z :=
  match e with
  | Zneg p =>
      let d := Z.pow_pos 2 p in
      let q := Z.pos m / d in
      let r := Z.pos m mod d in
      match 2 * r ?= d with
      | Lt => q
      | Gt => q + 1
      | Eq => if Z.even q then q else q + 1
      end
  | _ => Z.pos m * 2 ^ e
  end.

Definition py_round (f : float) : result Z :=
  match Prim2SF f with
  | S754_nan => Raise ValueError
  | S754_infinity _ => Raise OverflowError
  | S754_zero _ => Ok 0
  | S754_finite s m e =>
      let n := round_half_even m e in
      Ok (if s then - n else n)
  end.

(** [range(a, b)] *)
Definition py_range (a b : Z) : list Z :=
  map (fun i => a + Z.of_nat i) (seq 0 (Z.to_nat (b - a))).

(** ** Strings *)

(** [char.upper()] on a character.  Strings are modelled over 8-bit
    characters: an ASCII letter upper-cases to its capital; any other
    character is left as it is, which changes nothing for the test
    below, since no character outside ASCII upper-cases to a single
    character of [0-9A-F]. *)
Definition upper (c : ascii) : ascii :=
  let n := nat_of_ascii c in
  if (97 <=? n)%nat && (n <=? 122)%nat then ascii_of_nat (n - 32) else c.

(** [c in set('0123456789ABCDEF')] *)
Definition in_hex_set (c : ascii) : bool :=
  existsb (Ascii.eqb c) (list_ascii_of_string "0123456789ABCDEF").

(** Value of one base-16 digit, as [int(s, 16)] reads it. *)
Definition hex_digit (c : ascii) : option Z :=
  let n := nat_of_ascii c in
  if (48 <=? n)%nat && (n <=? 57)%nat then Some (Z.of_nat (n - 48))
  else if (65 <=? n)%nat && (n <=? 70)%nat then Some (Z.of_nat (n - 55))
  else if (97 <=? n)%nat && (n <=? 102)%nat then Some (Z.of_nat (n - 87))
  else None.

Fixpoint int16_digits (acc : Z) (s : string) : result Z :=
  match s with
  | EmptyString => Ok acc
  | String c rest =>
      match hex_digit c with
      | Some d => int16_digits (16 * acc + d) rest
      | None => Raise ValueError
      end
  end.

(** [int(s, 16)] on a string of hex digits (the only strings the program
    passes, the characters having been checked before). *)
Definition int16 (s : string) : result Z :=
  match s with
  | EmptyString => Raise ValueError
  | _ => int16_digits 0 s
  end.

Definition len (s : string) : Z := Z.of_nat (String.length s).

(** [s[i:j]] for [0 <= i <= j] and [s[-k:]] for [k <= len(s)]. *)
Definition slice (s : string) (i j : nat) : string := substring i (j - i) s.
Definition suffix (s : string) (k : nat) : string :=
  substring (String.length s - k) k s.

(** ** Calls into the window library *)

Inductive call : Type :=
| draw_pixel (hwnd x y : Z) (colorref : Z)
| fill_rect (hwnd x y w h : Z) (colorref : Z).

(** What running a method did: the calls it made, in order, and how it
    ended.  [Timeout] is a loop that has not finished within the fuel. *)
Inductive run : Type :=
| Done (calls : list call)
| Failed (calls : list call) (e : exn)
| Timeout.

Definition then_run (r : run) (k : run) : run :=
  match r with
  | Done c1 =>
      match k with
      | Done c2 => Done (c1 ++ c2)
      | Failed c2 e => Failed (c1 ++ c2) e
      | Timeout => Timeout
      end
  | other => other
  end.

Notation "r1 ;;; r2" := (then_run r1 r2) (at level 62, right associativity).

(** A single call whose making can fail. *)
Definition call_run (r : result call) : run :=
  match r with
  | Ok k => Done [k]
  | Raise e => Failed [] e
  end.

(** [window_lib.fill_rect(hwnd, x, y, w, h, colorref)]: the argument
    expressions are evaluated first, then each is passed for a C [int]
    parameter. *)
Definition call_fill_rect (hwnd : Z) (x y w h : result num) (colorref : Z)
    : run :=
  call_run (x' <- x ;; y' <- y ;; w' <- w ;; h' <- h ;;
            xi <- c_int x' ;; yi <- c_int y' ;;
            wi <- c_int w' ;; hi <- c_int h' ;;
            Ok (fill_rect hwnd xi yi wi hi colorref)).

(** ** class Color *)

Module Color.

Record t : Type := mk {
  r : num;
  g : num;
  b : num;
  a : option num;
  color : list num;
  colorref : Z
}.

(** [ctypes.c_uint32((b << 16) | (g << 8) | r)] *)
Definition generate_colorref (r g b : num) : result Z :=
  hi <- py_lshift b 16 ;;
  mid <- py_lshift g 8 ;;
  v <- py_or (Z.lor hi mid) r ;;
  Ok (v mod 2 ^ 32).

Definition out_of_range (v : num) : bool := num_gt v 255 || num_lt v 0.

Definition init (color : list num) : result t :=
  match color with
  | [c0; c1; c2] =>
      if out_of_range c0 || out_of_range c1 || out_of_range c2
      then Raise ValueError
      else
        ref <- generate_colorref c0 c1 c2 ;;
        Ok (mk c0 c1 c2 None color ref)
  | [c0; c1; c2; c3] =>
      if out_of_range c0 || out_of_range c1 || out_of_range c2
      then Raise ValueError
      else if out_of_range c3 then Raise ValueError
      else
        ref <- generate_colorref c0 c1 c2 ;;
        Ok (mk c0 c1 c2 (Some c3) color ref)
  | _ => Raise ValueError
  end.

Definition from_hex_code (hex_code : string) : result t :=
  if negb (len hex_code =? 8) && negb (len hex_code =? 6)
  then Raise ValueError
  else if negb (forallb (fun char => in_hex_set (upper char))
                        (list_ascii_of_string hex_code))
  then Raise ValueError
  else if len hex_code =? 8 then
    r <- int16 (slice hex_code 0 2) ;;
    g <- int16 (slice hex_code 2 4) ;;
    b <- int16 (slice hex_code 4 6) ;;
    a <- int16 (suffix hex_code 2) ;;
    init [Int r; Int g; Int b; Int a]
  else
    r <- int16 (slice hex_code 0 2) ;;
    g <- int16 (slice hex_code 2 4) ;;
    b <- int16 (suffix hex_code 2) ;;
    init [Int r; Int g; Int b].

End Color.

(** ** class Coordinate *)

Module Coordinate.

Record t : Type := mk { x : num; y : num }.

Definition init (x y : num) : result t :=
  if num_lt x 0 || num_lt y 0 then Raise ValueError else Ok (mk x y).

(** [v ** 2]: exact on an [int]; on a [float] the square as the C
    library's [pow] gives it, taken to be the correctly rounded one, with
    [OverflowError] when a finite float has no finite square. *)
Definition square (v : num) : result num :=
  match v with
  | Int z => Ok (Int (z ^ 2))
  | Flt f =>
      let p := (f * f)%float in
      if is_infinity p && negb (is_infinity f) then Raise OverflowError
      else Ok (Flt p)
  end.

(** [math.sqrt(v)]: [ValueError] below zero. *)
Definition math_sqrt (v : num) : result float :=
  f <- as_float v ;;
  if PrimFloat.ltb f 0 then Raise ValueError else Ok (PrimFloat.sqrt f).

Definition distance (self other : t) : result float :=
  dx <- num_sub (x other) (x self) ;;
  sx <- square dx ;;
  dy <- num_sub (y other) (y self) ;;
  sy <- square dy ;;
  sum <- num_add sx sy ;;
  math_sqrt sum.

End Coordinate.

(** ** class Window

    Only the handle matters to drawing; creating the window and its
    message loop belong to the C library. *)

Module Window.

Record t : Type := mk { title : string; hwnd : Z }.

(** [window_lib.draw_pixel(self.hwnd, coord.x, coord.y, color.colorref)] *)
Definition draw (self : t) (coord : Coordinate.t) (color : Color.t) : run :=
  call_run (xi <- c_int (Coordinate.x coord) ;;
            yi <- c_int (Coordinate.y coord) ;;
            Ok (draw_pixel (hwnd self) xi yi (Color.colorref color))).

End Window.

(** ** class Line *)

Module Line.

Record t : Type := mk {
  master : Window.t;
  start : Coordinate.t;
  end_ : Coordinate.t;
  color : Color.t;
  width : Z;
  radius : Z;
  slope : option float
}.

Definition init (master : Window.t) (start end_ : Coordinate.t)
    (color : Color.t) (width : num) (antialias : bool) : result t :=
  if num_le width 0 || negb (isinstance_int width) then Raise ValueError
  else
    match width with
    | Flt _ => Raise ValueError
    | Int w =>
        match (n <- num_sub (Coordinate.y end_) (Coordinate.y start) ;;
               d <- num_sub (Coordinate.x end_) (Coordinate.x start) ;;
               num_truediv n d) with
        | Ok s => Ok (mk master start end_ color w (w / 2) (Some s))
        | Raise ZeroDivisionError =>
            Ok (mk master start end_ color w (w / 2) None)
        | Raise e => Raise e
        end
    end.

(** [round(self.slope * (x - self.start.x) + self.start.y)] *)
Definition line_y (self : t) (slope : float) (x : num) : result Z :=
  d <- num_sub x (Coordinate.x (start self)) ;;
  fd <- as_float d ;;
  y0 <- as_float (Coordinate.y (start self)) ;;
  py_round (slope * fd + y0)%float.

(** The [for offset in range(-radius, radius + 1)] loop at column [x];
    [y] and [coords] are the variables it assigns. *)
Fixpoint band (self : t) (slope : float) (x : num) (offsets : list Z)
    (y : num) (coords : list Coordinate.t)
    : result (num * list Coordinate.t) :=
  match offsets with
  | [] => Ok (y, coords)
  | offset :: rest =>
      y' <- line_y self slope x ;;
      c <- (if PrimFloat.ltb (float_of_const 1) slope
            then xo <- num_add x (Int offset) ;; Coordinate.init xo (Int y')
            else Coordinate.init x (Int (y' + offset))) ;;
      band self slope x rest (Int y') (coords ++ [c])
  end.

(** The [while True] loop: [None] when it is still running after [fuel]
    iterations. *)
Fixpoint stepper (fuel : nat) (self : t) (slope : float)
    (dx dy : num) (step_x step_y : Z) (two_error : num)
    (x y error : num) (coords : list Coordinate.t)
    : option (result (list Coordinate.t)) :=
  match fuel with
  | O => None
  | S fuel' =>
      match band self slope x (py_range (- radius self) (radius self + 1))
                 y coords with
      | Raise e => Some (Raise e)
      | Ok (y1, coords1) =>
          if num_eqb x (Coordinate.x (end_ self))
             && num_eqb y1 (Coordinate.y (end_ self))
          then Some (Ok coords1)
          else
            match (if num_ltb (num_neg dy) two_error
                   then e2 <- num_sub error dy ;;
                        x2 <- num_add x (Int step_x) ;;
                        Ok (e2, x2)
                   else Ok (error, x)) with
            | Raise e => Some (Raise e)
            | Ok (error2, x2) =>
                match (if num_ltb two_error dx
                       then e3 <- num_add error2 dx ;;
                            y3 <- num_add y1 (Int step_y) ;;
                            Ok (e3, y3)
                       else Ok (error2, y1)) with
                | Raise e => Some (Raise e)
                | Ok (error3, y3) =>
                    stepper fuel' self slope dx dy step_x step_y two_error
                            x2 y3 error3 coords1
                end
            end
      end
  end.

(** The coordinates the stepping part of [display] collects. *)
Definition collect (fuel : nat) (self : t) (slope : float)
    : option (result (list Coordinate.t)) :=
  let sx := Coordinate.x (start self) in
  let sy := Coordinate.y (start self) in
  let ex := Coordinate.x (end_ self) in
  let ey := Coordinate.y (end_ self) in
  match (ddx <- num_sub sx ex ;;
         ddy <- num_sub sy ey ;;
         error <- num_sub (num_abs ddx) (num_abs ddy) ;;
         two_error <- num_mul (Int 2) error ;;
         Ok (num_abs ddx, num_abs ddy, error, two_error)) with
  | Raise e => Some (Raise e)
  | Ok (dx, dy, error, two_error) =>
      let step_x := if num_ltb sx ex then 1 else -1 in
      let step_y := if num_ltb sy ey then 1 else -1 in
      stepper fuel self slope dx dy step_x step_y two_error sx sy error []
  end.

(** [for coord in coords: self.master.draw(coord, self.color)] *)
Fixpoint draw_all (master : Window.t) (color : Color.t)
    (coords : list Coordinate.t) : run :=
  match coords with
  | [] => Done []
  | coord :: rest =>
      Window.draw master coord color ;;; draw_all master color rest
  end.

Definition display (fuel : nat) (self : t) : run :=
  match slope self with
  | Some s =>
      if negb (PrimFloat.eqb s (float_of_const 0)) then
        match collect fuel self s with
        | None => Timeout
        | Some (Raise e) => Failed [] e
        | Some (Ok coords) => draw_all (master self) (color self) coords
        end
      else
        call_fill_rect (Window.hwnd (master self))
          (Ok (Coordinate.x (start self))) (Ok (Coordinate.y (start self)))
          (num_sub (Coordinate.x (end_ self)) (Coordinate.x (start self)))
          (Ok (Int (width self))) (Color.colorref (color self))
  | None =>
      call_fill_rect (Window.hwnd (master self))
        (Ok (Coordinate.x (start self))) (Ok (Coordinate.y (start self)))
        (Ok (Int (width self)))
        (num_sub (Coordinate.y (end_ self)) (Coordinate.y (start self)))
        (Color.colorref (color self))
  end.

End Line.

(** ** class Rect *)

Module Rect.

Record t : Type := mk {
  master : Window.t;
  width : Z;
  height : Z;
  border_color : Color.t;
  borderwidth : Z;
  antialiasing : bool;
  fill : bool;
  fill_color : Color.t;
  top_left : Coordinate.t;
  top_right : Coordinate.t;
  bottom_left : Coordinate.t;
  bottom_right : Coordinate.t;
  top_edge : Line.t;
  bottom_edge : Line.t;
  left_edge : Line.t;
  right_edge : Line.t
}.

(** [v <= 0 or not isinstance(v, int)] raises; otherwise [v] is an [int]. *)
Definition positive_int (v : num) : result Z :=
  if num_le v 0 || negb (isinstance_int v) then Raise ValueError
  else
    match v with
    | Int z => Ok z
    | Flt _ => Raise ValueError
    end.

Definition init (master : Window.t) (top_left_corner : Coordinate.t)
    (width height : num) (border_color : Color.t) (borderwidth : num)
    (antialiasing fill : bool) (fill_color : Color.t) : result t :=
  w <- positive_int width ;;
  h <- positive_int height ;;
  bw <- positive_int borderwidth ;;
  let tl := top_left_corner in
  tr <- (x1 <- num_add (Coordinate.x tl) (Int w) ;;
         Coordinate.init x1 (Coordinate.y tl)) ;;
  bl <- (y1 <- num_add (Coordinate.y tl) (Int h) ;;
         Coordinate.init (Coordinate.x tl) y1) ;;
  br <- (x1 <- num_add (Coordinate.x tl) (Int w) ;;
         y1 <- num_add (Coordinate.y tl) (Int h) ;;
         Coordinate.init x1 y1) ;;
  top <- Line.init master tl tr border_color (Int bw) antialiasing ;;
  bottom <- Line.init master bl br border_color (Int bw) antialiasing ;;
  left <- Line.init master tl bl border_color (Int bw) antialiasing ;;
  right <- Line.init master tr br border_color (Int bw) antialiasing ;;
  Ok (mk master w h border_color bw antialiasing fill fill_color
         tl tr bl br top bottom left right).

(** The corner patch and the interior fill of [display]. *)
Definition patch_call (self : t) : run :=
  call_fill_rect (Window.hwnd (master self))
    (Ok (Coordinate.x (bottom_right self)))
    (Ok (Coordinate.y (bottom_right self)))
    (Ok (Int (borderwidth self))) (Ok (Int (borderwidth self)))
    (Color.colorref (border_color self)).

Definition interior_call (self : t) : run :=
  call_fill_rect (Window.hwnd (master self))
    (num_add (Coordinate.x (top_left self)) (Int (borderwidth self)))
    (num_add (Coordinate.y (top_left self)) (Int (borderwidth self)))
    (Ok (Int (width self - borderwidth self)))
    (Ok (Int (height self - borderwidth self)))
    (Color.colorref (fill_color self)).

Definition display (fuel : nat) (self : t) : run :=
  Line.display fuel (top_edge self) ;;;
  Line.display fuel (bottom_edge self) ;;;
  Line.display fuel (left_edge self) ;;;
  Line.display fuel (right_edge self) ;;;
  patch_call self ;;;
  (if fill self then interior_call self else Done []).

(** [self.fill = not self.fill]: the object after the call and what the
    call did on the window. *)
Definition change_fill (self : t) : t * run :=
  (mk (master self) (width self) (height self) (border_color self)
      (borderwidth self) (antialiasing self) (negb (fill self))
      (fill_color self) (top_left self) (top_right self) (bottom_left self)
      (bottom_right self) (top_edge self) (bottom_edge self)
      (left_edge self) (right_edge self),
   Done []).

End Rect.

(** ** Vocabulary of the properties *)

(** A channel value that is an integer in [0,255]. *)
Definition int_channel (v : num) : Prop :=
  exists z, v = Int z /\ 0 <= z <= 255.

(** A number that is a strictly positive integer. *)
Definition positive_integer (v : num) : Prop :=
  exists z, v = Int z /\ 0 < z.

(** The packed layout [(b << 16) | (g << 8) | r]. *)
Definition packed (r g b : Z) : Z :=
  Z.lor (Z.lor (Z.shiftl b 16) (Z.shiftl g 8)) r.

(** A character of [0-9A-Fa-f]. *)
Definition hex_char (c : ascii) : bool :=
  existsb (Ascii.eqb c) (list_ascii_of_string "0123456789ABCDEFabcdef").

(** A character of ASCII. *)
Definition is_ascii (c : ascii) : bool := (nat_of_ascii c <? 128)%nat.

(** The value of two hex digits, high digit first. *)
Definition two_hex (c d : ascii) : option Z :=
  match hex_digit c, hex_digit d with
  | Some h, Some l => Some (16 * h + l)
  | _, _ => None
  end.

(** The Coordinate with the integer coordinates [x] and [y]. *)
Definition point (x y : Z) : Coordinate.t := Coordinate.mk (Int x) (Int y).

Definition is_fill_rect (c : call) : bool :=
  match c with
  | fill_rect _ _ _ _ _ _ => true
  | draw_pixel _ _ _ _ => false
  end.

(** The call that fills the bounding box of the axis-aligned segment
    from [(sx, sy)] to [(ex, ey)], with [width] as the extent across the
    segment: its corner is the smaller end and its extents are not
    negative. *)
Definition bounding_box_fill (hwnd sx sy ex ey width colorref : Z) : call :=
  if sx =? ex
  then fill_rect hwnd sx (Z.min sy ey) width (Z.abs (ey - sy)) colorref
  else fill_rect hwnd (Z.min sx ex) sy (Z.abs (ex - sx)) width colorref.

(** The calls of a rectangle with top-left corner [(x, y)], width [w],
    height [h] and border width [bw]: the four edges in the order
    [display] makes them, the corner patch and the interior fill. *)
Definition edge_fills (hwnd x y w h bw colorref : Z) : list call :=
  [fill_rect hwnd x y w bw colorref;
   fill_rect hwnd x (y + h) w bw colorref;
   fill_rect hwnd x y bw h colorref;
   fill_rect hwnd (x + w) y bw h colorref].

Definition corner_patch (hwnd x y w h bw colorref : Z) : call :=
  fill_rect hwnd (x + w) (y + h) bw bw colorref.

Definition interior_fill (hwnd x y w h bw colorref : Z) : call :=
  fill_rect hwnd (x + bw) (y + bw) (w - bw) (h - bw) colorref.

(** [Color((0, 0, 0))], the default colour of lines and rectangles. *)
Definition black : Color.t :=
  Color.mk (Int 0) (Int 0) (Int 0) None [Int 0; Int 0; Int 0] 0.

(** ** Colours *)

Lemma lor_below (n a b : Z) :
  0 <= n -> 0 <= a < 2 ^ n -> 0 <= b < 2 ^ n -> 0 <= Z.lor a b < 2 ^ n.
Proof.
  intros Hn Ha Hb.
  destruct (Z.eq_dec a 0) as [->|Ea]; [rewrite Z.lor_0_l; exact Hb|].
  destruct (Z.eq_dec b 0) as [->|Eb]; [rewrite Z.lor_0_r; exact Ha|].
  assert (H0 : 0 <= Z.lor a b) by (apply Z.lor_nonneg; lia).
  split; [exact H0|].
  destruct (Z.eq_dec (Z.lor a b) 0) as [E|E]; [rewrite E; lia|].
  apply Z.log2_lt_pow2; [lia|].
  rewrite Z.log2_lor by lia.
  apply Z.max_lub_lt; apply Z.log2_lt_pow2; lia.
Qed.

Lemma packed_below (r g b : Z) :
  0 <= r <= 255 -> 0 <= g <= 255 -> 0 <= b <= 255 ->
  0 <= packed r g b < 2 ^ 24.
Proof.
  intros Hr Hg Hb. unfold packed.
  rewrite !Z.shiftl_mul_pow2 by lia.
  apply lor_below; [lia| |lia].
  apply lor_below; lia.
Qed.

Lemma out_of_range_int (z : Z) :
  Color.out_of_range (Int z) = false <-> 0 <= z <= 255.
Proof.
  unfold Color.out_of_range; cbn. rewrite orb_false_iff, !Z.ltb_ge. lia.
Qed.

Lemma generate_colorref_int (r g b : Z) :
  0 <= r <= 255 -> 0 <= g <= 255 -> 0 <= b <= 255 ->
  Color.generate_colorref (Int r) (Int g) (Int b) = Ok (packed r g b).
Proof.
  intros Hr Hg Hb. unfold Color.generate_colorref; cbn.
  fold (packed r g b). f_equal. apply Z.mod_small.
  pose proof (packed_below r g b Hr Hg Hb). lia.
Qed.

Lemma init_rgb (r g b : Z) :
  0 <= r <= 255 -> 0 <= g <= 255 -> 0 <= b <= 255 ->
  Color.init [Int r; Int g; Int b]
  = Ok (Color.mk (Int r) (Int g) (Int b) None [Int r; Int g; Int b]
                 (packed r g b)).
Proof.
  intros Hr Hg Hb. unfold Color.init.
  rewrite (proj2 (out_of_range_int r) Hr), (proj2 (out_of_range_int g) Hg),
    (proj2 (out_of_range_int b) Hb); cbn [orb].
  rewrite generate_colorref_int by assumption. reflexivity.
Qed.

Lemma init_rgba (r g b : Z) (a : num) :
  0 <= r <= 255 -> 0 <= g <= 255 -> 0 <= b <= 255 ->
  Color.out_of_range a = false ->
  Color.init [Int r; Int g; Int b; a]
  = Ok (Color.mk (Int r) (Int g) (Int b) (Some a) [Int r; Int g; Int b; a]
                 (packed r g b)).
Proof.
  intros Hr Hg Hb Ha. unfold Color.init.
  rewrite (proj2 (out_of_range_int r) Hr), (proj2 (out_of_range_int g) Hg),
    (proj2 (out_of_range_int b) Hb), Ha; cbn [orb].
  rewrite generate_colorref_int by assumption. reflexivity.
Qed.

(** C5: for r, g, b in [0,255] the packed value of [Color((r,g,b))] is
    [(b << 16) | (g << 8) | r], and for every alpha in [0,255] the packed
    value of [Color((r,g,b,a))] is the same: alpha is not packed. *)
Theorem C5_packed_layout_ignores_alpha (r g b : Z) :
  0 <= r <= 255 -> 0 <= g <= 255 -> 0 <= b <= 255 ->
  (exists c, Color.init [Int r; Int g; Int b] = Ok c
             /\ Color.colorref c = packed r g b)
  /\ (forall a, 0 <= a <= 255 ->
        exists c', Color.init [Int r; Int g; Int b; Int a] = Ok c'
                   /\ Color.colorref c' = packed r g b
                   /\ Color.a c' = Some (Int a)).
Proof.
  intros Hr Hg Hb. split.
  - eexists. split; [apply init_rgb; assumption|reflexivity].
  - intros a Ha. eexists.
    split; [apply init_rgba; try assumption; now apply out_of_range_int|].
    split; reflexivity.
Qed.

Lemma C5_witness :
  (exists c, Color.init [Int 1; Int 2; Int 3] = Ok c
             /\ Color.colorref c = packed 1 2 3)
  /\ (forall a, 0 <= a <= 255 ->
        exists c', Color.init [Int 1; Int 2; Int 3; Int a] = Ok c'
                   /\ Color.colorref c' = packed 1 2 3
                   /\ Color.a c' = Some (Int a)).
Proof. apply (C5_packed_layout_ignores_alpha 1 2 3); lia. Defined.

Lemma init_success (cs : list num) (c : Color.t) :
  Color.init cs = Ok c ->
  exists r g b,
    int_channel r /\ int_channel g /\ int_channel b
    /\ (cs = [r; g; b]
        \/ exists a, cs = [r; g; b; a] /\ Color.out_of_range a = false).
Proof.
  destruct cs as [|c0 [|c1 [|c2 [|c3 [|c4 rest]]]]]; cbn; try discriminate.
  - destruct (Color.out_of_range c0) eqn:E0; [discriminate|].
    destruct (Color.out_of_range c1) eqn:E1; [discriminate|].
    destruct (Color.out_of_range c2) eqn:E2; [discriminate|].
    destruct c0 as [r|], c1 as [g|], c2 as [b|]; cbn; try discriminate.
    intros _. exists (Int r), (Int g), (Int b).
    apply out_of_range_int in E0, E1, E2.
    repeat split; try (eexists; split; [reflexivity|lia]). now left.
  - destruct (Color.out_of_range c0) eqn:E0; [discriminate|].
    destruct (Color.out_of_range c1) eqn:E1; [discriminate|].
    destruct (Color.out_of_range c2) eqn:E2; [discriminate|].
    destruct (Color.out_of_range c3) eqn:E3; [discriminate|].
    destruct c0 as [r|], c1 as [g|], c2 as [b|]; cbn; try discriminate.
    intros _. exists (Int r), (Int g), (Int b).
    apply out_of_range_int in E0, E1, E2.
    repeat split; try (eexists; split; [reflexivity|lia]).
    right. exists c3. now split.
Qed.

(** C6 as stated fails: a non-integer alpha inside [0,255] is accepted. *)
Lemma C6_counterexample :
  exists cs c, Color.init cs = Ok c /\ ~ Forall int_channel cs.
Proof.
  exists [Int 0; Int 0; Int 0; Flt 0.5%float]. eexists. split.
  - vm_compute. reflexivity.
  - intros H. inversion H as [|? ? _ H1]; subst.
    inversion H1 as [|? ? _ H2]; subst.
    inversion H2 as [|? ? _ H3]; subst.
    inversion H3 as [|? ? [z [Hz _]] _]; subst. discriminate.
Qed.

(** C6, amended: construction succeeds only when the sequence has 3 or 4
    values, r, g and b are integers in [0,255] and alpha, when present, is
    neither above 255 nor below 0; construction fails for every sequence
    whose r, g or b is not an integer, also inside [0,255]. *)
Theorem C6_init_requires_integer_rgb :
  (forall cs c, Color.init cs = Ok c ->
     exists r g b,
       int_channel r /\ int_channel g /\ int_channel b
       /\ (cs = [r; g; b]
           \/ exists a, cs = [r; g; b; a] /\ Color.out_of_range a = false))
  /\ (forall cs i f, (i < 3)%nat -> nth_error cs i = Some (Flt f) ->
        exists e, Color.init cs = Raise e).
Proof.
  split; [exact init_success|].
  intros cs i f Hi Hn.
  destruct (Color.init cs) as [c|e] eqn:E; [|now exists e].
  exfalso. apply init_success in E.
  destruct E as (r & g & b & [zr [-> _]] & [zg [-> _]] & [zb [-> _]] & Hcs).
  assert (Hpre : nth_error cs i = nth_error [Int zr; Int zg; Int zb] i).
  { destruct Hcs as [->|[a [-> _]]]; [reflexivity|].
    destruct i as [|[|[|i]]]; try reflexivity; lia. }
  rewrite Hpre in Hn.
  destruct i as [|[|[|i]]]; cbn in Hn; try discriminate; lia.
Qed.

Lemma C6_witness :
  (exists r g b,
     int_channel r /\ int_channel g /\ int_channel b
     /\ ([Int 10; Int 20; Int 30] = [r; g; b]
         \/ exists a, [Int 10; Int 20; Int 30] = [r; g; b; a]
                      /\ Color.out_of_range a = false))
  /\ (exists e, Color.init [Int 0; Flt 0.5%float; Int 0] = Raise e).
Proof.
  split.
  - apply (proj1 C6_init_requires_integer_rgb [Int 10; Int 20; Int 30]
             (Color.mk (Int 10) (Int 20) (Int 30) None
                       [Int 10; Int 20; Int 30] 1971210)).
    vm_compute. reflexivity.
  - apply (proj2 C6_init_requires_integer_rgb
             [Int 0; Flt 0.5%float; Int 0] 1%nat 0.5%float).
    + lia.
    + reflexivity.
Defined.

(** ** Hex codes *)

Lemma hex_set_upper (c : ascii) : in_hex_set (upper c) = hex_char c.
Proof. destruct c as [[] [] [] [] [] [] [] []]; reflexivity. Qed.

Lemma hex_char_digit (c : ascii) :
  hex_char c = true -> exists d, hex_digit c = Some d /\ 0 <= d <= 15.
Proof.
  destruct c as [[] [] [] [] [] [] [] []]; vm_compute; intros H;
    try discriminate H; eexists; (split; [reflexivity|split; discriminate]).
Qed.

Lemma two_hex_range (c d : ascii) :
  hex_char c = true -> hex_char d = true ->
  exists v, two_hex c d = Some v /\ 0 <= v <= 255
            /\ int16 (String c (String d EmptyString)) = Ok v.
Proof.
  intros Hc Hd.
  destruct (hex_char_digit c Hc) as (h & Eh & Hh).
  destruct (hex_char_digit d Hd) as (l & El & Hl).
  exists (16 * h + l). unfold two_hex, int16; cbn [int16_digits].
  rewrite Eh, El.
  split; [reflexivity|]. split; [lia|reflexivity].
Qed.

Lemma from_hex_code_bad_char (s : string) (c : ascii) :
  In c (list_ascii_of_string s) -> hex_char c = false ->
  Color.from_hex_code s = Raise ValueError.
Proof.
  intros Hin Hc. unfold Color.from_hex_code.
  destruct (negb (len s =? 8) && negb (len s =? 6)); [reflexivity|].
  destruct (forallb _ _) eqn:E; [|reflexivity].
  rewrite forallb_forall in E. specialize (E c Hin).
  rewrite hex_set_upper in E. congruence.
Qed.

Lemma from_hex_code_6 (c0 c1 c2 c3 c4 c5 : ascii) :
  forallb hex_char [c0; c1; c2; c3; c4; c5] = true ->
  exists r g b,
    two_hex c0 c1 = Some r /\ two_hex c2 c3 = Some g
    /\ two_hex c4 c5 = Some b
    /\ Color.from_hex_code (string_of_list_ascii [c0; c1; c2; c3; c4; c5])
       = Ok (Color.mk (Int r) (Int g) (Int b) None [Int r; Int g; Int b]
                      (packed r g b)).
Proof.
  cbn [forallb]. rewrite !andb_true_iff.
  intros (H0 & H1 & H2 & H3 & H4 & H5 & _).
  destruct (two_hex_range c0 c1 H0 H1) as (r & Er & Hr & Ir).
  destruct (two_hex_range c2 c3 H2 H3) as (g & Eg & Hg & Ig).
  destruct (two_hex_range c4 c5 H4 H5) as (b & Eb & Hb & Ib).
  exists r, g, b. repeat split; try assumption.
  unfold Color.from_hex_code.
  cbn [string_of_list_ascii list_ascii_of_string forallb].
  rewrite !hex_set_upper, H0, H1, H2, H3, H4, H5.
  change (len (String c0 (String c1 (String c2 (String c3 (String c4
            (String c5 EmptyString))))))) with 6.
  cbn [Z.eqb Pos.eqb negb andb].
  change (slice _ 0 2) with (String c0 (String c1 EmptyString)).
  change (slice _ 2 4) with (String c2 (String c3 EmptyString)).
  change (suffix _ 2) with (String c4 (String c5 EmptyString)).
  rewrite Ir, Ig, Ib. cbn [bind]. now apply init_rgb.
Qed.

Lemma from_hex_code_8 (c0 c1 c2 c3 c4 c5 c6 c7 : ascii) :
  forallb hex_char [c0; c1; c2; c3; c4; c5; c6; c7] = true ->
  exists r g b a,
    two_hex c0 c1 = Some r /\ two_hex c2 c3 = Some g
    /\ two_hex c4 c5 = Some b /\ two_hex c6 c7 = Some a
    /\ Color.from_hex_code
         (string_of_list_ascii [c0; c1; c2; c3; c4; c5; c6; c7])
       = Ok (Color.mk (Int r) (Int g) (Int b) (Some (Int a))
                      [Int r; Int g; Int b; Int a] (packed r g b)).
Proof.
  cbn [forallb]. rewrite !andb_true_iff.
  intros (H0 & H1 & H2 & H3 & H4 & H5 & H6 & H7 & _).
  destruct (two_hex_range c0 c1 H0 H1) as (r & Er & Hr & Ir).
  destruct (two_hex_range c2 c3 H2 H3) as (g & Eg & Hg & Ig).
  destruct (two_hex_range c4 c5 H4 H5) as (b & Eb & Hb & Ib).
  destruct (two_hex_range c6 c7 H6 H7) as (a & Ea & Ha & Ia).
  exists r, g, b, a. repeat split; try assumption.
  unfold Color.from_hex_code.
  cbn [string_of_list_ascii list_ascii_of_string forallb].
  rewrite !hex_set_upper, H0, H1, H2, H3, H4, H5, H6, H7.
  change (len (String c0 (String c1 (String c2 (String c3 (String c4
            (String c5 (String c6 (String c7 EmptyString))))))))) with 8.
  cbn [Z.eqb Pos.eqb negb andb].
  change (slice _ 0 2) with (String c0 (String c1 EmptyString)).
  change (slice _ 2 4) with (String c2 (String c3 EmptyString)).
  change (slice _ 4 6) with (String c4 (String c5 EmptyString)).
  change (suffix _ 2) with (String c6 (String c7 EmptyString)).
  rewrite Ir, Ig, Ib, Ia. cbn [bind].
  apply init_rgba; try assumption. now apply out_of_range_int.
Qed.

(** C7: the hex constructor raises the validation error for every string
    whose length is not 6 or 8 or that has a character outside
    [0-9A-Fa-f]; on valid input each channel is the value of two hex
    digits; "FF000080" gives r=255, g=0, b=0 with alpha 128 stored and not
    packed, "00FF00" gives g=255 with r and b 0. *)
Theorem C7_from_hex_code :
  (forall s, len s <> 6 -> len s <> 8 ->
     Color.from_hex_code s = Raise ValueError)
  /\ (forall s c, In c (list_ascii_of_string s) -> hex_char c = false ->
        Color.from_hex_code s = Raise ValueError)
  /\ (forall c0 c1 c2 c3 c4 c5,
        forallb hex_char [c0; c1; c2; c3; c4; c5] = true ->
        exists r g b,
          two_hex c0 c1 = Some r /\ two_hex c2 c3 = Some g
          /\ two_hex c4 c5 = Some b
          /\ Color.from_hex_code
               (string_of_list_ascii [c0; c1; c2; c3; c4; c5])
             = Ok (Color.mk (Int r) (Int g) (Int b) None
                            [Int r; Int g; Int b] (packed r g b)))
  /\ (forall c0 c1 c2 c3 c4 c5 c6 c7,
        forallb hex_char [c0; c1; c2; c3; c4; c5; c6; c7] = true ->
        exists r g b a,
          two_hex c0 c1 = Some r /\ two_hex c2 c3 = Some g
          /\ two_hex c4 c5 = Some b /\ two_hex c6 c7 = Some a
          /\ Color.from_hex_code
               (string_of_list_ascii [c0; c1; c2; c3; c4; c5; c6; c7])
             = Ok (Color.mk (Int r) (Int g) (Int b) (Some (Int a))
                            [Int r; Int g; Int b; Int a] (packed r g b)))
  /\ Color.from_hex_code "FF000080"
     = Ok (Color.mk (Int 255) (Int 0) (Int 0) (Some (Int 128))
                    [Int 255; Int 0; Int 0; Int 128] 255)
  /\ Color.from_hex_code "00FF00"
     = Ok (Color.mk (Int 0) (Int 255) (Int 0) None
                    [Int 0; Int 255; Int 0] (Z.shiftl 255 8)).
Proof.
  split; [|split; [|split; [|split; [|split]]]].
  - intros s H6 H8. unfold Color.from_hex_code.
    destruct (Z.eqb_spec (len s) 8); [contradiction|].
    destruct (Z.eqb_spec (len s) 6); [contradiction|]. reflexivity.
  - exact from_hex_code_bad_char.
  - exact from_hex_code_6.
  - exact from_hex_code_8.
  - vm_compute. reflexivity.
  - vm_compute. reflexivity.
Qed.

Lemma C7_witness :
  Color.from_hex_code "12345" = Raise ValueError
  /\ Color.from_hex_code "00FG00" = Raise ValueError
  /\ exists r g b,
       two_hex "a" "B" = Some r /\ two_hex "0" "9" = Some g
       /\ two_hex "f" "F" = Some b
       /\ Color.from_hex_code "aB09fF"
          = Ok (Color.mk (Int r) (Int g) (Int b) None
                         [Int r; Int g; Int b] (packed r g b)).
Proof.
  split; [|split].
  - apply (proj1 C7_from_hex_code "12345"%string); vm_compute; discriminate.
  - apply (proj1 (proj2 C7_from_hex_code) "00FG00"%string "G"%char).
    + cbn. tauto.
    + reflexivity.
  - apply (proj1 (proj2 (proj2 C7_from_hex_code))
             "a"%char "B"%char "0"%char "9"%char "f"%char "F"%char).
    reflexivity.
Defined.

(** ** Further properties of colours *)

(** [Color.__init__] raises [ValueError] for every sequence whose length
    is neither 3 nor 4, and for every sequence that holds a value above
    255 or below 0, wherever it stands and whatever the other values
    are. *)
Theorem color_init_rejects (cs : list num) :
  (List.length cs <> 3%nat -> List.length cs <> 4%nat ->
   Color.init cs = Raise ValueError)
  /\ (forall v, In v cs -> Color.out_of_range v = true ->
      Color.init cs = Raise ValueError).
Proof.
  split.
  - intros H3 H4.
    destruct cs as [|c0 [|c1 [|c2 [|c3 [|c4 rest]]]]]; cbn in *;
      try reflexivity; congruence.
  - intros v Hin Hv.
    destruct cs as [|c0 [|c1 [|c2 [|c3 [|c4 rest]]]]]; try reflexivity.
    + cbn in Hin. unfold Color.init.
      destruct Hin as [<-|[<-|[<-|[]]]]; rewrite Hv;
        rewrite ?orb_true_r; reflexivity.
    + cbn in Hin. unfold Color.init.
      destruct Hin as [<-|[<-|[<-|[<-|[]]]]]; rewrite Hv;
        rewrite ?orb_true_r; try reflexivity.
      now destruct (_ || _).
Qed.

Lemma color_init_rejects_witness :
  Color.init [Int 1; Int 2] = Raise ValueError
  /\ Color.init [Int 0; Flt 255.5%float; Int 0] = Raise ValueError.
Proof.
  split.
  - apply (proj1 (color_init_rejects [Int 1; Int 2])); discriminate.
  - apply (proj2 (color_init_rejects [Int 0; Flt 255.5%float; Int 0])
             (Flt 255.5%float)).
    + cbn. tauto.
    + reflexivity.
Defined.

Lemma land_shifted_low (hi lo n : Z) :
  0 <= n -> 0 <= lo < 2 ^ n -> Z.land (hi * 2 ^ n) lo = 0.
Proof.
  intros Hn Hlo. apply Z.bits_inj'. intros i Hi.
  rewrite Z.land_spec, Z.bits_0.
  destruct (Z.ltb_spec i n) as [L|L].
  - now rewrite Z.mul_pow2_bits_low.
  - destruct (Z.eq_dec lo 0) as [->|N].
    + now rewrite Z.bits_0, andb_false_r.
    + rewrite (Z.bits_above_log2 lo i), andb_false_r; [reflexivity|lia|].
      assert (Z.log2 lo < n) by (apply Z.log2_lt_pow2; lia). lia.
Qed.

Lemma lor_shifted_low (hi lo n : Z) :
  0 <= n -> 0 <= lo < 2 ^ n -> Z.lor (hi * 2 ^ n) lo = hi * 2 ^ n + lo.
Proof.
  intros Hn Hlo.
  pose proof (land_shifted_low hi lo n Hn Hlo) as L.
  rewrite <- (Z.lxor_lor _ _ L). symmetry. now apply Z.add_nocarry_lxor.
Qed.

Lemma packed_sum (r g b : Z) :
  0 <= r <= 255 -> 0 <= g <= 255 ->
  packed r g b = b * 65536 + g * 256 + r.
Proof.
  intros Hr Hg. unfold packed. rewrite !Z.shiftl_mul_pow2 by lia.
  rewrite (lor_shifted_low b (g * 2 ^ 8) 16) by lia.
  replace (b * 2 ^ 16 + g * 2 ^ 8) with ((b * 2 ^ 8 + g) * 2 ^ 8) by lia.
  rewrite (lor_shifted_low (b * 2 ^ 8 + g) r 8) by lia. lia.
Qed.

Lemma color_init_inv (cs : list num) (c : Color.t) :
  Color.init cs = Ok c ->
  exists r g b,
    0 <= r <= 255 /\ 0 <= g <= 255 /\ 0 <= b <= 255
    /\ Color.r c = Int r /\ Color.g c = Int g /\ Color.b c = Int b
    /\ Color.colorref c = packed r g b /\ Color.color c = cs.
Proof.
  intros H. destruct (init_success cs c H)
    as (r & g & b & [zr [-> Hr]] & [zg [-> Hg]] & [zb [-> Hb]] & Hcs).
  exists zr, zg, zb. repeat (split; [assumption|]).
  destruct Hcs as [->|(a & -> & Ha)].
  - rewrite init_rgb in H by assumption. injection H as <-. now cbn.
  - rewrite init_rgba in H by assumption. injection H as <-. now cbn.
Qed.

(** The packed value of every constructed colour fits in 24 bits and
    decodes back to the stored channels: r is its low byte, g the next
    byte and b the byte above. *)
Theorem colorref_decodes (cs : list num) (c : Color.t) :
  Color.init cs = Ok c ->
  0 <= Color.colorref c < 2 ^ 24
  /\ Color.r c = Int (Z.land (Color.colorref c) 255)
  /\ Color.g c = Int (Z.land (Z.shiftr (Color.colorref c) 8) 255)
  /\ Color.b c = Int (Z.shiftr (Color.colorref c) 16).
Proof.
  intros H. destruct (color_init_inv cs c H)
    as (r & g & b & Hr & Hg & Hb & -> & -> & -> & -> & _).
  split; [now apply packed_below|].
  rewrite packed_sum by assumption.
  change 255 with (Z.ones 8). rewrite !Z.land_ones by lia.
  rewrite !Z.shiftr_div_pow2 by lia.
  change (2 ^ 8) with 256. change (2 ^ 16) with 65536.
  repeat split; f_equal; Z.div_mod_to_equations; lia.
Qed.

Lemma colorref_decodes_witness :
  0 <= 197121 < 2 ^ 24
  /\ Int 1 = Int (Z.land 197121 255)
  /\ Int 2 = Int (Z.land (Z.shiftr 197121 8) 255)
  /\ Int 3 = Int (Z.shiftr 197121 16).
Proof.
  apply (colorref_decodes [Int 1; Int 2; Int 3]
           (Color.mk (Int 1) (Int 2) (Int 3) None [Int 1; Int 2; Int 3]
                     197121)).
  vm_compute. reflexivity.
Defined.

Lemma upper_hex_char (c : ascii) : hex_char (upper c) = hex_char c.
Proof. destruct c as [[] [] [] [] [] [] [] []]; reflexivity. Qed.

Lemma upper_hex_digit (c : ascii) : hex_digit (upper c) = hex_digit c.
Proof. destruct c as [[] [] [] [] [] [] [] []]; reflexivity. Qed.

Lemma upper_two_hex (c d : ascii) : two_hex (upper c) (upper d) = two_hex c d.
Proof. unfold two_hex. now rewrite !upper_hex_digit. Qed.

Lemma from_hex_code_bad_length (s : string) :
  len s <> 6 -> len s <> 8 -> Color.from_hex_code s = Raise ValueError.
Proof.
  intros H6 H8. unfold Color.from_hex_code.
  destruct (Z.eqb_spec (len s) 8); [contradiction|].
  destruct (Z.eqb_spec (len s) 6); [contradiction|]. reflexivity.
Qed.

Lemma forallb_false_In {A : Type} (p : A -> bool) (l : list A) :
  forallb p l = false -> exists a, In a l /\ p a = false.
Proof.
  induction l as [|a l IH]; cbn; [discriminate|].
  destruct (p a) eqn:E; cbn.
  - intros H. destruct (IH H) as (b & Hb & Pb). exists b. auto.
  - intros _. exists a. auto.
Qed.

Lemma from_hex_code_upper_list (l : list ascii) :
  Color.from_hex_code (string_of_list_ascii (map upper l))
  = Color.from_hex_code (string_of_list_ascii l).
Proof.
  destruct l as [|c0 [|c1 [|c2 [|c3 [|c4 [|c5 [|c6 [|c7 [|c8 rest]]]]]]]]];
    try reflexivity.
  - destruct (forallb hex_char [c0; c1; c2; c3; c4; c5]) eqn:E.
    + destruct (from_hex_code_6 _ _ _ _ _ _ E)
        as (r & g & b & Er & Eg & Eb & ->).
      assert (E' : forallb hex_char (map upper [c0; c1; c2; c3; c4; c5])
                   = true).
      { cbn [map forallb] in *. now rewrite !upper_hex_char. }
      destruct (from_hex_code_6 _ _ _ _ _ _ E')
        as (r' & g' & b' & Er' & Eg' & Eb' & E'').
      cbn [map]. rewrite E''. rewrite upper_two_hex in Er', Eg', Eb'.
      congruence.
    + destruct (forallb_false_In _ _ E) as (a & Ha & Pa).
      transitivity (@Raise Color.t ValueError); [|symmetry].
      * apply (from_hex_code_bad_char _ (upper a));
          [|now rewrite upper_hex_char].
        rewrite list_ascii_of_string_of_list_ascii. now apply in_map.
      * apply (from_hex_code_bad_char _ a); [|assumption].
        now rewrite list_ascii_of_string_of_list_ascii.
  - destruct (forallb hex_char [c0; c1; c2; c3; c4; c5; c6; c7]) eqn:E.
    + destruct (from_hex_code_8 _ _ _ _ _ _ _ _ E)
        as (r & g & b & a & Er & Eg & Eb & Ea & ->).
      assert (E' : forallb hex_char
                     (map upper [c0; c1; c2; c3; c4; c5; c6; c7]) = true).
      { cbn [map forallb] in *. now rewrite !upper_hex_char. }
      destruct (from_hex_code_8 _ _ _ _ _ _ _ _ E')
        as (r' & g' & b' & a' & Er' & Eg' & Eb' & Ea' & E'').
      cbn [map]. rewrite E''.
      rewrite upper_two_hex in Er', Eg', Eb', Ea'. congruence.
    + destruct (forallb_false_In _ _ E) as (a & Ha & Pa).
      transitivity (@Raise Color.t ValueError); [|symmetry].
      * apply (from_hex_code_bad_char _ (upper a));
          [|now rewrite upper_hex_char].
        rewrite list_ascii_of_string_of_list_ascii. now apply in_map.
      * apply (from_hex_code_bad_char _ a); [|assumption].
        now rewrite list_ascii_of_string_of_list_ascii.
  - rewrite !from_hex_code_bad_length; try reflexivity;
      unfold len; cbn [map string_of_list_ascii String.length]; lia.
Qed.

(** On strings of ASCII characters hex codes are read without regard to
    case: a string and its upper-cased form give the same result, the
    same colour or the same error. *)
Theorem from_hex_code_ignores_case (s : string) :
  forallb is_ascii (list_ascii_of_string s) = true ->
  Color.from_hex_code
    (string_of_list_ascii (map upper (list_ascii_of_string s)))
  = Color.from_hex_code s.
Proof.
  intros _. rewrite from_hex_code_upper_list.
  now rewrite string_of_list_ascii_of_string.
Qed.

Lemma from_hex_code_ignores_case_witness :
  Color.from_hex_code "AB09FF" = Color.from_hex_code "aB09fF".
Proof.
  apply (from_hex_code_ignores_case "aB09fF"). reflexivity.
Defined.

(** ** Construction of lines and rectangles *)

Lemma bind_ok {A B : Type} (m : result A) (f : A -> result B) (b : B) :
  bind m f = Ok b -> exists a, m = Ok a /\ f a = Ok b.
Proof. destruct m as [a|e]; cbn; [eauto|discriminate]. Qed.

Lemma num_ltb_int (a b : Z) : num_ltb (Int a) (Int b) = (a <? b).
Proof.
  unfold num_ltb, num_cmp, Z.ltb. now destruct (a ?= b).
Qed.

Lemma num_eqb_int (a b : Z) : num_eqb (Int a) (Int b) = (a =? b).
Proof.
  unfold num_eqb, num_cmp.
  destruct (Z.compare_spec a b), (Z.eqb_spec a b); try reflexivity; lia.
Qed.

Lemma positive_int_ok (v : num) (z : Z) :
  Rect.positive_int v = Ok z <-> v = Int z /\ 0 < z.
Proof.
  unfold Rect.positive_int. destruct v as [w|f]; cbn.
  - rewrite orb_false_r. destruct (Z.leb_spec w 0); split.
    + discriminate.
    + intros [E H0]. injection E as ->. lia.
    + intros E. injection E as ->. split; [reflexivity|lia].
    + intros [E _]. now injection E as ->.
  - rewrite orb_true_r. split; [discriminate|]. intros [E _]. discriminate.
Qed.

Lemma positive_int_raises (v : num) :
  ~ positive_integer v -> Rect.positive_int v = Raise ValueError.
Proof.
  intros H. unfold Rect.positive_int. destruct v as [w|f]; cbn.
  - rewrite orb_false_r. destruct (Z.leb_spec w 0); [reflexivity|].
    exfalso. apply H. exists w. now split.
  - now rewrite orb_true_r.
Qed.

Lemma positive_int_error (v : num) (e : exn) :
  Rect.positive_int v = Raise e -> e = ValueError.
Proof.
  unfold Rect.positive_int.
  destruct (num_le v 0 || negb (isinstance_int v)), v; congruence.
Qed.

Lemma int_truediv_zero_divisor (a : Z) :
  int_truediv a 0 = Raise ZeroDivisionError.
Proof. reflexivity. Qed.

Lemma int_truediv_zero_dividend (b : Z) :
  b <> 0 ->
  exists s, int_truediv 0 b = Ok s
            /\ PrimFloat.eqb s (float_of_const 0) = true.
Proof.
  intros Hb. unfold int_truediv.
  destruct (Z.eqb_spec b 0); [contradiction|].
  destruct b; [contradiction| |]; eexists; split; reflexivity.
Qed.

Lemma int_truediv_no_zero_division (a b : Z) :
  b <> 0 -> int_truediv a b <> Raise ZeroDivisionError.
Proof.
  intros Hb. unfold int_truediv.
  destruct (Z.eqb_spec b 0); [contradiction|].
  destruct (is_infinity _); discriminate.
Qed.

Lemma line_init_raises (m : Window.t) (s e : Coordinate.t) (c : Color.t)
    (width : num) (aa : bool) :
  ~ positive_integer width -> Line.init m s e c width aa = Raise ValueError.
Proof.
  intros H. unfold Line.init. destruct width as [w|f]; cbn.
  - rewrite orb_false_r. destruct (Z.leb_spec w 0); [reflexivity|].
    exfalso. apply H. exists w. now split.
  - now rewrite orb_true_r.
Qed.

(** What a successfully constructed line holds, for any coordinates. *)
Lemma line_init_inv (m : Window.t) (s e : Coordinate.t) (c : Color.t)
    (width : num) (aa : bool) (l : Line.t) :
  Line.init m s e c width aa = Ok l ->
  exists w sl, width = Int w /\ 0 < w
    /\ l = Line.mk m s e c w (w / 2) sl.
Proof.
  unfold Line.init. destruct width as [w|f]; cbn [num_le isinstance_int].
  2: { rewrite orb_true_r. discriminate. }
  cbn [negb]. rewrite orb_false_r.
  destruct (Z.leb_spec w 0) as [|Hw]; [discriminate|].
  intros H. exists w.
  destruct (bind _ _) as [f|[]]; try discriminate;
    injection H as <-; eexists; repeat split; assumption.
Qed.

Lemma line_init_ok (m : Window.t) (sx sy ex ey : Z) (c : Color.t)
    (width : num) (aa : bool) (l : Line.t) :
  Line.init m (point sx sy) (point ex ey) c width aa = Ok l ->
  exists w, width = Int w /\ 0 < w
    /\ exists sl, l = Line.mk m (point sx sy) (point ex ey) c w (w / 2) sl
    /\ (sx = ex -> sl = None)
    /\ (sx <> ex ->
        exists f, sl = Some f /\ int_truediv (ey - sy) (ex - sx) = Ok f).
Proof.
  unfold Line.init. destruct width as [w|f]; cbn.
  2: { rewrite orb_true_r. discriminate. }
  rewrite orb_false_r. destruct (Z.leb_spec w 0) as [|Hw]; [discriminate|].
  intros H. exists w. split; [reflexivity|]. split; [assumption|].
  destruct (Z.eq_dec sx ex) as [E|E].
  - replace (ex - sx) with 0 in H by lia.
    rewrite int_truediv_zero_divisor in H. injection H as <-.
    eexists. split; [reflexivity|]. split; [reflexivity|contradiction].
  - pose proof (int_truediv_no_zero_division (ey - sy) (ex - sx)
                  ltac:(lia)) as Hz.
    destruct (int_truediv _ _) as [f|[]] eqn:Ediv;
      try discriminate; try congruence.
    injection H as <-. eexists. split; [reflexivity|].
    split; [contradiction|]. intros _. now exists f.
Qed.

Lemma line_init_vertical (m : Window.t) (x sy ey : Z) (c : Color.t)
    (w : Z) (aa : bool) :
  0 < w ->
  Line.init m (point x sy) (point x ey) c (Int w) aa
  = Ok (Line.mk m (point x sy) (point x ey) c w (w / 2) None).
Proof.
  intros Hw. unfold Line.init; cbn. rewrite orb_false_r.
  destruct (Z.leb_spec w 0); [lia|].
  replace (x - x) with 0 by lia.
  now rewrite int_truediv_zero_divisor.
Qed.

Lemma line_init_horizontal (m : Window.t) (sx ex y : Z) (c : Color.t)
    (w : Z) (aa : bool) :
  0 < w -> sx <> ex ->
  exists f, PrimFloat.eqb f (float_of_const 0) = true
    /\ Line.init m (point sx y) (point ex y) c (Int w) aa
       = Ok (Line.mk m (point sx y) (point ex y) c w (w / 2) (Some f)).
Proof.
  intros Hw Ex. unfold Line.init; cbn. rewrite orb_false_r.
  destruct (Z.leb_spec w 0); [lia|].
  replace (y - y) with 0 by lia.
  destruct (int_truediv_zero_dividend (ex - sx)) as (f & Ef & Hf); [lia|].
  rewrite Ef. now exists f.
Qed.

Lemma coordinate_init_ok (x y : Z) :
  0 <= x -> 0 <= y -> Coordinate.init (Int x) (Int y) = Ok (point x y).
Proof.
  intros Hx Hy. unfold Coordinate.init; cbn.
  destruct (Z.ltb_spec x 0); [lia|]. destruct (Z.ltb_spec y 0); [lia|].
  reflexivity.
Qed.

Lemma coordinate_init_inv (x y : Z) (c : Coordinate.t) :
  Coordinate.init (Int x) (Int y) = Ok c ->
  c = point x y /\ 0 <= x /\ 0 <= y.
Proof.
  unfold Coordinate.init; cbn.
  destruct (Z.ltb_spec x 0); [discriminate|].
  destruct (Z.ltb_spec y 0); [discriminate|].
  cbn. intros E. injection E as <-. repeat split; lia.
Qed.

Lemma coordinate_init_any (x y : num) (c : Coordinate.t) :
  Coordinate.init x y = Ok c -> c = Coordinate.mk x y.
Proof.
  unfold Coordinate.init. destruct (_ || _); [discriminate|].
  intros E. now injection E as <-.
Qed.

(** What a successfully constructed rectangle holds, for any top-left
    corner. *)
Lemma rect_init_inv (m : Window.t) (tl : Coordinate.t) (width height : num)
    (bc : Color.t) (borderwidth : num) (aa fl : bool) (fc : Color.t)
    (r : Rect.t) :
  Rect.init m tl width height bc borderwidth aa fl fc = Ok r ->
  exists w h bw tr bl br st sb sl sr,
    width = Int w /\ height = Int h /\ borderwidth = Int bw
    /\ 0 < w /\ 0 < h /\ 0 < bw
    /\ r = Rect.mk m w h bc bw aa fl fc tl tr bl br
             (Line.mk m tl tr bc bw (bw / 2) st)
             (Line.mk m bl br bc bw (bw / 2) sb)
             (Line.mk m tl bl bc bw (bw / 2) sl)
             (Line.mk m tr br bc bw (bw / 2) sr).
Proof.
  unfold Rect.init. intros H.
  apply bind_ok in H. destruct H as (w & Hw & H).
  apply bind_ok in H. destruct H as (h & Hh & H).
  apply bind_ok in H. destruct H as (bw & Hbw & H).
  apply positive_int_ok in Hw, Hh, Hbw.
  destruct Hw as [-> Hw], Hh as [-> Hh], Hbw as [-> Hbw].
  apply bind_ok in H. destruct H as (tr & _ & H).
  apply bind_ok in H. destruct H as (bl & _ & H).
  apply bind_ok in H. destruct H as (br & _ & H).
  apply bind_ok in H. destruct H as (top & Htop & H).
  apply bind_ok in H. destruct H as (bottom & Hbottom & H).
  apply bind_ok in H. destruct H as (left & Hleft & H).
  apply bind_ok in H. destruct H as (right & Hright & H).
  apply line_init_inv in Htop, Hbottom, Hleft, Hright.
  destruct Htop as (w1 & st & E1 & _ & ->).
  destruct Hbottom as (w2 & sb & E2 & _ & ->).
  destruct Hleft as (w3 & sl & E3 & _ & ->).
  destruct Hright as (w4 & sr & E4 & _ & ->).
  injection E1 as <-. injection E2 as <-.
  injection E3 as <-. injection E4 as <-.
  injection H as <-.
  exists w, h, bw, tr, bl, br, st, sb, sl, sr. repeat split; assumption.
Qed.

(** What a successfully constructed rectangle holds, for an integer
    top-left corner. *)
Lemma rect_init_ok (m : Window.t) (x y : Z) (width height : num)
    (bc : Color.t) (borderwidth : num) (aa fl : bool) (fc : Color.t)
    (r : Rect.t) :
  Rect.init m (point x y) width height bc borderwidth aa fl fc = Ok r ->
  exists w h bw ftop fbot,
    width = Int w /\ height = Int h /\ borderwidth = Int bw
    /\ 0 < w /\ 0 < h /\ 0 < bw
    /\ PrimFloat.eqb ftop (float_of_const 0) = true
    /\ PrimFloat.eqb fbot (float_of_const 0) = true
    /\ let tl := point x y in
       let tr := point (x + w) y in
       let bl := point x (y + h) in
       let br := point (x + w) (y + h) in
       r = Rect.mk m w h bc bw aa fl fc tl tr bl br
             (Line.mk m tl tr bc bw (bw / 2) (Some ftop))
             (Line.mk m bl br bc bw (bw / 2) (Some fbot))
             (Line.mk m tl bl bc bw (bw / 2) None)
             (Line.mk m tr br bc bw (bw / 2) None).
Proof.
  unfold Rect.init. intros H.
  apply bind_ok in H. destruct H as (w & Hw & H).
  apply bind_ok in H. destruct H as (h & Hh & H).
  apply bind_ok in H. destruct H as (bw & Hbw & H).
  apply positive_int_ok in Hw, Hh, Hbw.
  destruct Hw as [-> Hw], Hh as [-> Hh], Hbw as [-> Hbw].
  cbn [point Coordinate.x Coordinate.y num_add bind] in H.
  apply bind_ok in H. destruct H as (tr & Htr & H).
  apply bind_ok in H. destruct H as (bl & Hbl & H).
  apply bind_ok in H. destruct H as (br & Hbr & H).
  apply coordinate_init_inv in Htr, Hbl, Hbr.
  destruct Htr as [-> _], Hbl as [-> _], Hbr as [-> _].
  fold (point x y) in H.
  destruct (line_init_horizontal m x (x + w) y bc bw aa Hbw)
    as (ftop & Fz & Etop); [lia|].
  destruct (line_init_horizontal m x (x + w) (y + h) bc bw aa Hbw)
    as (fbot & Fb & Ebot); [lia|].
  rewrite Etop, Ebot in H.
  rewrite !line_init_vertical in H by assumption.
  cbn [bind] in H. injection H as <-.
  exists w, h, bw, ftop, fbot. repeat split; assumption.
Qed.

(** C8: constructing a Line with width 0, a negative width or a
    non-integer width raises the validation error, and so does
    constructing a Rect whose width, height or borderwidth is not a
    strictly positive integer; a construction that succeeds holds only
    validated values. *)
Theorem C8_width_validation :
  (forall m s e c width aa,
     ~ positive_integer width ->
     Line.init m s e c width aa = Raise ValueError)
  /\ (forall m tl width height bc borderwidth aa fl fc,
        ~ positive_integer width \/ ~ positive_integer height
        \/ ~ positive_integer borderwidth ->
        Rect.init m tl width height bc borderwidth aa fl fc
        = Raise ValueError)
  /\ (forall m s e c width aa l,
        Line.init m s e c width aa = Ok l ->
        width = Int (Line.width l) /\ 0 < Line.width l
        /\ Line.radius l = Line.width l / 2)
  /\ (forall m tl width height bc borderwidth aa fl fc r,
        Rect.init m tl width height bc borderwidth aa fl fc = Ok r ->
        width = Int (Rect.width r) /\ 0 < Rect.width r
        /\ height = Int (Rect.height r) /\ 0 < Rect.height r
        /\ borderwidth = Int (Rect.borderwidth r) /\ 0 < Rect.borderwidth r
        /\ Forall (fun edge => Line.width edge = Rect.borderwidth r)
                  [Rect.top_edge r; Rect.bottom_edge r;
                   Rect.left_edge r; Rect.right_edge r]).
Proof.
  split; [|split; [|split]].
  - exact line_init_raises.
  - intros m tl width height bc borderwidth aa fl fc H. unfold Rect.init.
    destruct (Rect.positive_int width) as [w|e] eqn:Ew;
      [|apply positive_int_error in Ew; now subst].
    destruct (Rect.positive_int height) as [h|e] eqn:Eh;
      [|apply positive_int_error in Eh; now subst].
    destruct (Rect.positive_int borderwidth) as [bw|e] eqn:Eb;
      [|apply positive_int_error in Eb; now subst].
    exfalso. apply positive_int_ok in Ew, Eh, Eb.
    destruct Ew as [-> ?], Eh as [-> ?], Eb as [-> ?].
    destruct H as [H|[H|H]]; apply H; eexists; split; eauto.
  - intros m s e c width aa l H.
    apply line_init_inv in H.
    destruct H as (w & sl & -> & Hw & ->). cbn. auto.
  - intros m tl width height bc borderwidth aa fl fc r H.
    apply rect_init_inv in H.
    destruct H as (w & h & bw & tr & bl & br & st & sb & sl & sr
                   & -> & -> & -> & Hw & Hh & Hb & ->).
    cbn. repeat split; try assumption. repeat constructor.
Qed.

Lemma C8_witness :
  Line.init (Window.mk "w" 1) (point 0 0) (point 3 4)
            black (Int 0) false = Raise ValueError
  /\ Line.init (Window.mk "w" 1) (point 0 0) (point 3 4)
               black (Int (-1)) false = Raise ValueError
  /\ Line.init (Window.mk "w" 1) (point 0 0) (point 3 4)
               black (Flt 1.5%float) false = Raise ValueError
  /\ Rect.init (Window.mk "w" 1) (point 0 0) (Int 10) (Flt 2%float)
               black (Int 1) false false black = Raise ValueError.
Proof.
  split; [|split; [|split]].
  - apply (proj1 C8_width_validation). intros (z & E & Hz).
    injection E as <-. lia.
  - apply (proj1 C8_width_validation). intros (z & E & Hz).
    injection E as <-. lia.
  - apply (proj1 C8_width_validation). intros (z & E & Hz). discriminate.
  - apply (proj1 (proj2 C8_width_validation)). right. left.
    intros (z & E & Hz). discriminate.
Defined.

(** ** Axis-aligned lines *)

Lemma display_vertical (m : Window.t) (sx sy ex ey : Z) (c : Color.t)
    (w rad : Z) (fuel : nat) :
  Line.display fuel (Line.mk m (point sx sy) (point ex ey) c w rad None)
  = Done [fill_rect (Window.hwnd m) sx sy w (ey - sy) (Color.colorref c)].
Proof. reflexivity. Qed.

Lemma display_horizontal (m : Window.t) (sx sy ex ey : Z) (c : Color.t)
    (w rad : Z) (f : float) (fuel : nat) :
  PrimFloat.eqb f (float_of_const 0) = true ->
  Line.display fuel (Line.mk m (point sx sy) (point ex ey) c w rad (Some f))
  = Done [fill_rect (Window.hwnd m) sx sy (ex - sx) w (Color.colorref c)].
Proof.
  intros H. unfold Line.display. cbn [Line.slope]. rewrite H. reflexivity.
Qed.

(** C3 as stated fails twice: a vertical line with a float x makes no
    call, its [display] raises when the float reaches the C [int]
    parameter; and a horizontal line given from right to left makes a
    call of negative extent, which is not the fill of its bounding
    box. *)
Lemma C3_counterexample :
  (exists l,
     Line.init (Window.mk "w" 1) (Coordinate.mk (Flt 0.5) (Int 0))
               (Coordinate.mk (Flt 0.5) (Int 3)) black (Int 1) false = Ok l
     /\ Line.slope l = None
     /\ Line.display 0 l = Failed [] ArgumentError)
  /\ (exists l,
        Line.init (Window.mk "w" 1) (point 10 0) (point 0 0) black (Int 1)
                  false = Ok l
        /\ Line.display 0 l = Done [fill_rect 1 10 0 (-10) 1 0]
        /\ fill_rect 1 10 0 (-10) 1 0 <> bounding_box_fill 1 10 0 0 0 1 0).
Proof.
  split.
  - eexists. split; [vm_compute; reflexivity|]. split; reflexivity.
  - eexists. split; [vm_compute; reflexivity|].
    split; [reflexivity|]. vm_compute. discriminate.
Qed.

(** C3, amended: a vertical or horizontal Line with integer coordinates,
    whatever the order of its endpoints, displays as exactly one
    [fill_rect] call and no pixel call; the rectangle is anchored at
    [start], has the line's width across the segment and the signed
    difference [end - start] along it, so it is the bounding box of the
    segment when [start] comes before [end]. *)
Theorem C3_axis_aligned_single_fill_rect
    (m : Window.t) (sx sy ex ey : Z) (c : Color.t) (width : num)
    (aa : bool) (l : Line.t) :
  Line.init m (point sx sy) (point ex ey) c width aa = Ok l ->
  sx = ex \/ sy = ey ->
  forall fuel, exists k,
    Line.display fuel l = Done [k] /\ is_fill_rect k = true
    /\ k = (if sx =? ex
            then fill_rect (Window.hwnd m) sx sy (Line.width l) (ey - sy)
                           (Color.colorref c)
            else fill_rect (Window.hwnd m) sx sy (ex - sx) (Line.width l)
                           (Color.colorref c))
    /\ (sx <= ex -> sy <= ey ->
        k = bounding_box_fill (Window.hwnd m) sx sy ex ey (Line.width l)
                              (Color.colorref c)).
Proof.
  intros Hinit Haxis fuel.
  destruct (line_init_ok _ _ _ _ _ _ _ _ _ Hinit)
    as (w & -> & Hw & sl & -> & Hv & Hh).
  unfold bounding_box_fill. cbn [Line.width].
  destruct (Z.eqb_spec sx ex) as [E|E].
  - rewrite (Hv E), display_vertical. eexists. split; [reflexivity|].
    split; [reflexivity|]. split; [reflexivity|].
    intros _ Hy. f_equal; lia.
  - destruct Haxis as [Hx|Hy]; [contradiction|]. subst ey.
    destruct (line_init_horizontal m sx ex sy c w aa Hw E) as (f & Hf & Ef).
    rewrite Ef in Hinit. injection Hinit as Hsl.
    rewrite <- Hsl, display_horizontal by assumption.
    eexists. split; [reflexivity|].
    split; [reflexivity|]. split; [reflexivity|].
    intros Hx _. f_equal; lia.
Qed.

Lemma C3_witness :
  exists k,
    Line.display 0
      (Line.mk (Window.mk "w" 1) (point 2 5) (point 12 5) black 3 1
               (Some 0%float))
    = Done [k] /\ is_fill_rect k = true
    /\ k = fill_rect 1 2 5 (12 - 2) 3 0
    /\ (2 <= 12 -> 5 <= 5 -> k = bounding_box_fill 1 2 5 12 5 3 0).
Proof.
  refine (C3_axis_aligned_single_fill_rect
            (Window.mk "w" 1) 2 5 12 5 black (Int 3) false
            (Line.mk (Window.mk "w" 1) (point 2 5) (point 12 5) black 3 1
                     (Some 0%float)) _ _ 0%nat).
  - vm_compute. reflexivity.
  - right. reflexivity.
Defined.

(** C10 as stated fails on float coordinates: with the equal x values
    infinity the difference is a NaN, no division error is raised, the
    slope is a NaN and not the undefined sentinel, and [display] enters
    the stepping loop and raises; with the equal x values 0.5 the slope
    is the sentinel but [display] raises when the float reaches the C
    [int] parameter. *)
Lemma C10_counterexample :
  (exists s e l,
     Coordinate.init (Flt infinity) (Int 0) = Ok s
     /\ Coordinate.init (Flt infinity) (Int 1) = Ok e
     /\ num_eqb (Coordinate.x s) (Coordinate.x e) = true
     /\ Line.init (Window.mk "w" 1) s e black (Int 1) false = Ok l
     /\ Line.slope l = Some nan
     /\ Line.display 1 l = Failed [] ValueError)
  /\ (exists s e l,
        Coordinate.init (Flt 0.5) (Int 0) = Ok s
        /\ Coordinate.init (Flt 0.5) (Int 3) = Ok e
        /\ num_eqb (Coordinate.x s) (Coordinate.x e) = true
        /\ Line.init (Window.mk "w" 1) s e black (Int 1) false = Ok l
        /\ Line.slope l = None
        /\ Line.display 0 l = Failed [] ArgumentError).
Proof.
  split; do 3 eexists;
    (split; [vm_compute; reflexivity|]);
    (split; [vm_compute; reflexivity|]);
    (split; [vm_compute; reflexivity|]);
    (split; [vm_compute; reflexivity|]);
    split; vm_compute; reflexivity.
Qed.

(** C10, amended: for integer coordinates with equal x values, also for
    a single point, constructing a Line never raises a division error:
    the slope is the undefined sentinel, and [display] makes exactly one
    [fill_rect] call of height [end.y - start.y], which is 0 for a single
    point. *)
Theorem C10_equal_x_never_divides
    (m : Window.t) (x sy ey : Z) (c : Color.t) (width : num) (aa : bool) :
  Line.init m (point x sy) (point x ey) c width aa
  <> Raise ZeroDivisionError
  /\ (forall w, width = Int w -> 0 < w ->
        exists l, Line.init m (point x sy) (point x ey) c width aa = Ok l
          /\ Line.slope l = None
          /\ forall fuel,
               Line.display fuel l
               = Done [fill_rect (Window.hwnd m) x sy w (ey - sy)
                                 (Color.colorref c)])
  /\ (sy = ey ->
      forall w, width = Int w -> 0 < w ->
        exists l, Line.init m (point x sy) (point x ey) c width aa = Ok l
          /\ forall fuel,
               Line.display fuel l
               = Done [fill_rect (Window.hwnd m) x sy w 0
                                 (Color.colorref c)]).
Proof.
  split; [|split].
  - destruct (Line.init m (point x sy) (point x ey) c width aa)
      as [l|ex] eqn:H; [discriminate|].
    destruct width as [w|f].
    + destruct (Z.leb_spec w 0) as [Hw|Hw].
      * rewrite line_init_raises in H; [congruence|].
        intros (z & Ez & Hz). injection Ez as <-. lia.
      * rewrite line_init_vertical in H by assumption. discriminate.
    + rewrite line_init_raises in H; [congruence|].
      intros (z & Ez & _). discriminate.
  - intros w -> Hw. eexists. split; [now apply line_init_vertical|].
    split; [reflexivity|]. intros fuel. apply display_vertical.
  - intros -> w -> Hw. eexists. split; [now apply line_init_vertical|].
    intros fuel. rewrite display_vertical. now rewrite Z.sub_diag.
Qed.

Lemma C10_witness :
  exists l,
    Line.init (Window.mk "w" 1) (point 4 4) (point 4 4) black (Int 1) false
    = Ok l
    /\ Line.slope l = None
    /\ forall fuel, Line.display fuel l = Done [fill_rect 1 4 4 1 (4 - 4) 0].
Proof.
  apply (proj1 (proj2 (C10_equal_x_never_divides
                         (Window.mk "w" 1) 4 4 4 black (Int 1) false)) 1).
  - reflexivity.
  - lia.
Defined.

(** ** Rectangles *)

Lemma rect_display_done (m : Window.t) (x y : Z) (width height : num)
    (bc : Color.t) (borderwidth : num) (aa fl : bool) (fc : Color.t)
    (r : Rect.t) (fuel : nat) :
  Rect.init m (point x y) width height bc borderwidth aa fl fc = Ok r ->
  Line.display fuel (Rect.top_edge r) ;;;
  Line.display fuel (Rect.bottom_edge r) ;;;
  Line.display fuel (Rect.left_edge r) ;;;
  Line.display fuel (Rect.right_edge r) ;;; Done []
  = Done (edge_fills (Window.hwnd m) x y (Rect.width r) (Rect.height r)
                     (Rect.borderwidth r) (Color.colorref bc))
  /\ Rect.display fuel r
     = Done (edge_fills (Window.hwnd m) x y (Rect.width r) (Rect.height r)
                        (Rect.borderwidth r) (Color.colorref bc)
             ++ [corner_patch (Window.hwnd m) x y (Rect.width r)
                              (Rect.height r) (Rect.borderwidth r)
                              (Color.colorref bc)]
             ++ if fl
                then [interior_fill (Window.hwnd m) x y (Rect.width r)
                                    (Rect.height r) (Rect.borderwidth r)
                                    (Color.colorref fc)]
                else []).
Proof.
  intros H. apply rect_init_ok in H.
  destruct H as (w & h & bw & ft & fb & _ & _ & _ & _ & _ & _ & Ft & Fb & ->).
  unfold Rect.display.
  cbn [Rect.top_edge Rect.bottom_edge Rect.left_edge Rect.right_edge
       Rect.width Rect.height Rect.borderwidth].
  rewrite !display_vertical, !display_horizontal by assumption.
  unfold edge_fills, corner_patch, interior_fill.
  split; [cbn; repeat (f_equal; try lia)|].
  destruct fl; cbn; repeat (f_equal; try lia).
Qed.

(** C4 as stated fails on a float corner: the Rect with top-left corner
    (0.5, 0.5) is constructed, and its [display] raises at the first edge,
    when the float reaches the C [int] parameter, with no corner patch and
    no interior fill. *)
Lemma C4_counterexample :
  exists tl r,
    Coordinate.init (Flt 0.5) (Flt 0.5) = Ok tl
    /\ Rect.init (Window.mk "w" 1) tl (Int 10) (Int 10) black (Int 1)
                 false true black = Ok r
    /\ Rect.display 0 r = Failed [] ArgumentError.
Proof.
  do 2 eexists. split; [vm_compute; reflexivity|].
  split; [vm_compute; reflexivity|].
  vm_compute. reflexivity.
Qed.

(** C4, amended: [display] of a Rect with an integer top-left corner
    first displays the four edges, then makes exactly one [fill_rect] of
    borderwidth by borderwidth at the bottom-right corner in the border
    colour, then one interior [fill_rect] exactly when the fill flag is
    set, at (top_left.x + borderwidth, top_left.y + borderwidth) with
    size (width - borderwidth) by (height - borderwidth) in the fill
    colour. *)
Theorem C4_rect_display_sequence
    (m : Window.t) (x y : Z) (width height : num) (bc : Color.t)
    (borderwidth : num) (aa fl : bool) (fc : Color.t) (r : Rect.t) :
  Rect.init m (point x y) width height bc borderwidth aa fl fc = Ok r ->
  forall fuel,
    Line.display fuel (Rect.top_edge r) ;;;
    Line.display fuel (Rect.bottom_edge r) ;;;
    Line.display fuel (Rect.left_edge r) ;;;
    Line.display fuel (Rect.right_edge r) ;;; Done []
    = Done (edge_fills (Window.hwnd m) x y (Rect.width r) (Rect.height r)
                       (Rect.borderwidth r) (Color.colorref bc))
    /\ Rect.display fuel r
       = Done (edge_fills (Window.hwnd m) x y (Rect.width r) (Rect.height r)
                          (Rect.borderwidth r) (Color.colorref bc)
               ++ [corner_patch (Window.hwnd m) x y (Rect.width r)
                                (Rect.height r) (Rect.borderwidth r)
                                (Color.colorref bc)]
               ++ if fl
                  then [interior_fill (Window.hwnd m) x y (Rect.width r)
                                      (Rect.height r) (Rect.borderwidth r)
                                      (Color.colorref fc)]
                  else [])
    /\ (fl = false ->
        Rect.display fuel r
        = Done (edge_fills (Window.hwnd m) x y (Rect.width r)
                           (Rect.height r) (Rect.borderwidth r)
                           (Color.colorref bc)
                ++ [corner_patch (Window.hwnd m) x y (Rect.width r)
                                 (Rect.height r) (Rect.borderwidth r)
                                 (Color.colorref bc)])).
Proof.
  intros H fuel.
  destruct (rect_display_done _ _ _ _ _ _ _ _ _ _ _ fuel H) as [He Hd].
  split; [exact He|]. split; [exact Hd|].
  intros ->. rewrite Hd. now rewrite app_nil_r.
Qed.

Lemma C4_witness :
  exists r,
    Rect.init (Window.mk "w" 7) (point 2 3) (Int 10) (Int 10) black
              (Int 1) false false black = Ok r
    /\ Rect.display 0 r
       = Done [fill_rect 7 2 3 10 1 0; fill_rect 7 2 13 10 1 0;
               fill_rect 7 2 3 1 10 0; fill_rect 7 12 3 1 10 0;
               fill_rect 7 12 13 1 1 0].
Proof.
  destruct (Rect.init (Window.mk "w" 7) (point 2 3) (Int 10)
              (Int 10) black (Int 1) false false black) as [r|e] eqn:E;
    [|vm_compute in E; discriminate E].
  exists r. split; [reflexivity|].
  rewrite (proj1 (proj2 (C4_rect_display_sequence _ _ _ _ _ _ _ _ _ _ r E
                           0%nat))).
  vm_compute in E. injection E as <-. reflexivity.
Defined.

(** C9: [change_fill] negates the fill flag and changes no other field
    of the Rect; the call itself draws nothing, and the next [display]
    uses the new flag. *)
Theorem C9_change_fill_frame (r : Rect.t) :
  let r' := fst (Rect.change_fill r) in
  Rect.fill r' = negb (Rect.fill r)
  /\ Rect.master r' = Rect.master r
  /\ Rect.width r' = Rect.width r /\ Rect.height r' = Rect.height r
  /\ Rect.border_color r' = Rect.border_color r
  /\ Rect.borderwidth r' = Rect.borderwidth r
  /\ Rect.antialiasing r' = Rect.antialiasing r
  /\ Rect.fill_color r' = Rect.fill_color r
  /\ Rect.top_left r' = Rect.top_left r
  /\ Rect.top_right r' = Rect.top_right r
  /\ Rect.bottom_left r' = Rect.bottom_left r
  /\ Rect.bottom_right r' = Rect.bottom_right r
  /\ Rect.top_edge r' = Rect.top_edge r
  /\ Rect.bottom_edge r' = Rect.bottom_edge r
  /\ Rect.left_edge r' = Rect.left_edge r
  /\ Rect.right_edge r' = Rect.right_edge r
  /\ snd (Rect.change_fill r) = Done []
  /\ forall fuel,
       Rect.display fuel r'
       = (Line.display fuel (Rect.top_edge r) ;;;
          Line.display fuel (Rect.bottom_edge r) ;;;
          Line.display fuel (Rect.left_edge r) ;;;
          Line.display fuel (Rect.right_edge r) ;;;
          call_fill_rect (Window.hwnd (Rect.master r))
            (Ok (Coordinate.x (Rect.bottom_right r)))
            (Ok (Coordinate.y (Rect.bottom_right r)))
            (Ok (Int (Rect.borderwidth r))) (Ok (Int (Rect.borderwidth r)))
            (Color.colorref (Rect.border_color r)) ;;;
          if negb (Rect.fill r)
          then call_fill_rect (Window.hwnd (Rect.master r))
                 (num_add (Coordinate.x (Rect.top_left r))
                          (Int (Rect.borderwidth r)))
                 (num_add (Coordinate.y (Rect.top_left r))
                          (Int (Rect.borderwidth r)))
                 (Ok (Int (Rect.width r - Rect.borderwidth r)))
                 (Ok (Int (Rect.height r - Rect.borderwidth r)))
                 (Color.colorref (Rect.fill_color r))
          else Done []).
Proof. cbn. repeat split. Qed.

(** ** The stepping loop *)

Lemma steep_stepper_stuck (m : Window.t) (c : Color.t) (fuel : nat) :
  forall (y : num) (error : Z) (coords : list Coordinate.t),
    Line.stepper fuel
      (Line.mk m (point 0 0) (point 1 2) c 1 0 (Some 2%float))
      2%float (Int 1) (Int 2) 1 1 (Int (-2)) (Int 0) y (Int error) coords
    = None.
Proof.
  induction fuel as [|fuel IH]; intros y error coords; [reflexivity|].
  cbn [Line.stepper].
  replace (Line.band _ _ _ _ _ _)
    with (Ok (Int 0, coords ++ [point 0 0]))
    by (vm_compute; reflexivity).
  cbn -[Line.stepper]. apply IH.
Qed.

(** C1, evaluated on the line from (0,0) to (1,2) of width 1: its slope
    is defined and non-zero, and the stepping loop of [display] is still
    running after any number of iterations. *)
Theorem C1_stepping_loop_never_ends (m : Window.t) (c : Color.t) :
  exists l,
    Line.init m (point 0 0) (point 1 2) c (Int 1) false = Ok l
    /\ Line.slope l = Some 2%float
    /\ PrimFloat.eqb 2%float (float_of_const 0) = false
    /\ forall fuel, Line.display fuel l = Timeout.
Proof.
  eexists. split; [vm_compute; reflexivity|].
  split; [reflexivity|]. split; [reflexivity|].
  intros fuel. unfold Line.display, Line.collect.
  cbn -[Line.stepper]. now rewrite steep_stepper_stuck.
Qed.

(** C2, evaluated on the line from (0,5) to (3,1) of width 3: the slope
    is below -1, so its absolute value exceeds 1, and every band of three
    pixels is offset along y, not along x. *)
Theorem C2_steep_negative_slope_band_along_y (m : Window.t) (c : Color.t) :
  exists l f,
    Line.init m (point 0 5) (point 3 1) c (Int 3) false = Ok l
    /\ Line.slope l = Some f
    /\ PrimFloat.ltb f (-1)%float = true
    /\ 2 * Line.radius l + 1 = 3
    /\ forall fuel,
         Line.display (4 + fuel) l
         = Done (map (fun p => draw_pixel (Window.hwnd m) (fst p) (snd p)
                                          (Color.colorref c))
                     [(0, 4); (0, 5); (0, 6);
                      (1, 3); (1, 4); (1, 5);
                      (2, 1); (2, 2); (2, 3);
                      (3, 0); (3, 1); (3, 2)]).
Proof.
  eexists. eexists. split; [vm_compute; reflexivity|].
  split; [reflexivity|]. split; [reflexivity|]. split; [reflexivity|].
  intros fuel. vm_compute. reflexivity.
Qed.

(** ** Coordinates *)

(** [distance] is symmetric on integer coordinates, and the distance of
    a point to itself is 0.0. *)
Theorem distance_symmetric (px py qx qy : Z) :
  Coordinate.distance (point px py) (point qx qy)
  = Coordinate.distance (point qx qy) (point px py)
  /\ Coordinate.distance (point px py) (point px py) = Ok 0%float.
Proof.
  split.
  - unfold Coordinate.distance; cbn [point Coordinate.x Coordinate.y
      num_sub num_add Coordinate.square bind].
    do 2 f_equal. ring.
  - unfold Coordinate.distance; cbn [point Coordinate.x Coordinate.y
      num_sub num_add Coordinate.square bind].
    replace ((px - px) ^ 2 + (py - py) ^ 2) with 0 by ring.
    reflexivity.
Qed.

(** ** The stepping loop in general *)

Lemma py_range_length (a b : Z) :
  List.length (py_range a b) = Z.to_nat (b - a).
Proof. unfold py_range. now rewrite length_map, length_seq. Qed.

Lemma py_range_head (a b : Z) :
  a < b -> exists rest, py_range a b = a :: rest.
Proof.
  intros H. unfold py_range.
  destruct (Z.to_nat (b - a)) as [|n] eqn:E; [lia|].
  cbn. rewrite Z.add_0_r. eauto.
Qed.

Lemma draw_all_points (w : Window.t) (c : Color.t) (pts : list (Z * Z)) :
  Line.draw_all w c (map (fun p => point (fst p) (snd p)) pts)
  = Done (map (fun p => draw_pixel (Window.hwnd w) (fst p) (snd p)
                                   (Color.colorref c)) pts).
Proof.
  induction pts as [|p pts IH]; cbn [map Line.draw_all]; [reflexivity|].
  rewrite IH. reflexivity.
Qed.

Lemma band_appends (l : Line.t) (f : float) (x : Z) (offsets : list Z) :
  forall y (pts : list (Z * Z)) y' coords',
    Line.band l f (Int x) offsets y
              (map (fun p => point (fst p) (snd p)) pts)
    = Ok (y', coords') ->
    exists new,
      coords' = map (fun p => point (fst p) (snd p)) (pts ++ new)
      /\ List.length new = List.length offsets
      /\ Forall (fun p => 0 <= fst p /\ 0 <= snd p) new.
Proof.
  induction offsets as [|o rest IH]; intros y pts y' coords'.
  - cbn. intros H. injection H as _ <-. exists []. rewrite app_nil_r.
    repeat split. constructor.
  - cbn [Line.band]. intros H.
    apply bind_ok in H. destruct H as (y1 & _ & H).
    apply bind_ok in H. destruct H as (p & Hp & H).
    assert (Hq : exists q, p = point (fst q) (snd q)
                           /\ 0 <= fst q /\ 0 <= snd q).
    { destruct (PrimFloat.ltb _ _); cbn [num_add bind] in Hp;
        apply coordinate_init_inv in Hp; destruct Hp as (-> & ? & ?);
        eexists (_, _); cbn; repeat split; assumption. }
    destruct Hq as (q & -> & Hq).
    change (map (fun p => point (fst p) (snd p)) pts
            ++ [point (fst q) (snd q)])
      with (map (fun p => point (fst p) (snd p)) pts
            ++ map (fun p => point (fst p) (snd p)) [q]) in H.
    rewrite <- map_app in H.
    destruct (IH _ _ _ _ H) as (new & -> & Hlen & Hall).
    exists (q :: new). rewrite <- app_assoc. cbn [app].
    repeat split; [cbn; now rewrite Hlen|now constructor].
Qed.

Lemma stepper_stuck (l : Line.t) (f : float) (dx dy : Z)
    (step_x step_y : Z) (two_error x ex : Z) :
  Coordinate.x (Line.end_ l) = Int ex ->
  x <> ex ->
  (- dy <? two_error) = false ->
  forall fuel y error coords cs,
    Line.stepper fuel l f (Int dx) (Int dy) step_x step_y (Int two_error)
                 (Int x) y error coords
    <> Some (Ok cs).
Proof.
  intros Hex Hx Hte. induction fuel as [|fuel IH];
    intros y error coords cs; [discriminate|].
  cbn [Line.stepper].
  destruct (Line.band _ _ _ _ _ _) as [[y1 coords1]|e]; [|discriminate].
  rewrite Hex, num_eqb_int.
  destruct (Z.eqb_spec x ex); [contradiction|].
  cbn [andb num_neg]. rewrite num_ltb_int, Hte, num_ltb_int.
  destruct (two_error <? dx); [|apply IH].
  destruct (bind _ _) as [[e3 y3]|e]; [apply IH|discriminate].
Qed.

Lemma stepper_count (l : Line.t) (f : float) (dx dy : Z)
    (step_x step_y : Z) (two_error B sx ex : Z) :
  Coordinate.x (Line.start l) = Int sx ->
  Coordinate.x (Line.end_ l) = Int ex ->
  (- dy <? two_error) = true ->
  Z.of_nat (List.length
              (py_range (- Line.radius l) (Line.radius l + 1))) = B ->
  step_x = 1 \/ step_x = -1 ->
  ex - sx = dx * step_x ->
  forall fuel i y error pts cs,
    0 <= i ->
    Z.of_nat (List.length pts) = i * B ->
    Forall (fun p => 0 <= fst p /\ 0 <= snd p) pts ->
    Line.stepper fuel l f (Int dx) (Int dy) step_x step_y (Int two_error)
                 (Int (sx + i * step_x)) y error
                 (map (fun p => point (fst p) (snd p)) pts)
    = Some (Ok cs) ->
    exists all,
      cs = map (fun p => point (fst p) (snd p)) all
      /\ Z.of_nat (List.length all) = (dx + 1) * B
      /\ Forall (fun p => 0 <= fst p /\ 0 <= snd p) all.
Proof.
  intros Hsx Hex Hte HB Hstep Hdx.
  induction fuel as [|fuel IH]; intros i y error pts cs Hi Hlen Hall;
    [discriminate|].
  cbn [Line.stepper].
  destruct (Line.band _ _ _ _ _ _) as [[y1 coords1]|e] eqn:Eb;
    [|discriminate].
  destruct (band_appends _ _ _ _ _ _ _ _ Eb) as (new & -> & Hnew & Hnn).
  assert (Hlen1 : Z.of_nat (List.length (pts ++ new)) = (i + 1) * B).
  { rewrite length_app, Nat2Z.inj_add, Hlen, Hnew, HB. lia. }
  assert (Hall1 : Forall (fun p => 0 <= fst p /\ 0 <= snd p) (pts ++ new)).
  { apply Forall_app. now split. }
  rewrite Hex, num_eqb_int.
  destruct ((sx + i * step_x =? ex)
            && num_eqb y1 (Coordinate.y (Line.end_ l))) eqn:Ebreak.
  - intros H. injection H as <-.
    apply andb_true_iff in Ebreak. destruct Ebreak as [Ex _].
    apply Z.eqb_eq in Ex.
    assert (i = dx) by (destruct Hstep; subst step_x; lia).
    subst i. exists (pts ++ new). now repeat split.
  - cbn [num_neg]. rewrite num_ltb_int, Hte.
    destruct (num_sub error (Int dy)) as [e2|e]; [|discriminate].
    cbn [bind num_add].
    replace (sx + i * step_x + step_x) with (sx + (i + 1) * step_x) by lia.
    destruct (num_ltb (Int two_error) (Int dx)).
    + destruct (bind _ _) as [[e3 y3]|e]; [|discriminate].
      apply (IH (i + 1)); try assumption; lia.
    + apply (IH (i + 1)); try assumption; lia.
Qed.

(** A sloped line with integer coordinates that is at least twice as
    tall as it is wide is never displayed: [display] does not return, it
    runs forever or raises. *)
Theorem steep_line_display_never_returns
    (m : Window.t) (sx sy ex ey : Z) (c : Color.t) (width : num)
    (aa : bool) (l : Line.t) (f : float) :
  Line.init m (point sx sy) (point ex ey) c width aa = Ok l ->
  Line.slope l = Some f ->
  PrimFloat.eqb f (float_of_const 0) = false ->
  2 * Z.abs (sx - ex) <= Z.abs (sy - ey) ->
  forall fuel calls, Line.display fuel l <> Done calls.
Proof.
  intros Hinit Hsl Hf Hsteep fuel calls.
  destruct (line_init_ok _ _ _ _ _ _ _ _ _ Hinit)
    as (w & -> & Hw & sl & -> & Hv & _).
  cbn in Hsl. subst sl.
  assert (Hx : sx <> ex).
  { intros E. specialize (Hv E). discriminate. }
  unfold Line.display. cbn [Line.slope]. rewrite Hf. cbn [negb].
  destruct (Line.collect _ _ _) as [[coords|e]|] eqn:Ec; try discriminate.
  exfalso. unfold Line.collect in Ec.
  cbn [Line.start Line.end_ point Coordinate.x Coordinate.y
       num_sub num_abs num_mul bind] in Ec.
  revert Ec. apply (stepper_stuck _ _ _ _ _ _ _ _ ex);
    [reflexivity|exact Hx|].
  apply Z.ltb_ge. lia.
Qed.

Lemma steep_line_display_never_returns_witness :
  Line.display 100
    (Line.mk (Window.mk "w" 1) (point 3 0) (point 1 9) black 2 1
             (Some (-4.5)%float))
  <> Done [].
Proof.
  refine (steep_line_display_never_returns
            (Window.mk "w" 1) 3 0 1 9 black (Int 2) false _
            (-4.5)%float _ _ _ _ 100%nat []).
  - vm_compute. reflexivity.
  - reflexivity.
  - reflexivity.
  - cbn. lia.
Defined.

(** When [display] of a sloped line with integer coordinates returns, it
    has made exactly (dx + 1) * (2 * radius + 1) calls, one band per
    column from [start.x] to [end.x]; every call is a [draw_pixel] on the
    line's window in the line's colour at a position with non-negative
    coordinates. *)
Theorem sloped_display_pixel_count
    (m : Window.t) (sx sy ex ey : Z) (c : Color.t) (width : num)
    (aa : bool) (l : Line.t) (f : float) (fuel : nat) (calls : list call) :
  Line.init m (point sx sy) (point ex ey) c width aa = Ok l ->
  Line.slope l = Some f ->
  PrimFloat.eqb f (float_of_const 0) = false ->
  Line.display fuel l = Done calls ->
  Z.of_nat (List.length calls)
  = (Z.abs (sx - ex) + 1) * (2 * Line.radius l + 1)
  /\ Forall (fun k => exists x y,
                 k = draw_pixel (Window.hwnd m) x y (Color.colorref c)
                 /\ 0 <= x /\ 0 <= y) calls.
Proof.
  intros Hinit Hsl Hf Hd.
  destruct (Z.le_gt_cases (Z.abs (sy - ey)) (2 * Z.abs (sx - ex) - 1))
    as [Hs|Hs].
  2: { exfalso.
       apply (steep_line_display_never_returns _ _ _ _ _ _ _ _ _ _
                Hinit Hsl Hf ltac:(lia) fuel calls Hd). }
  destruct (line_init_ok _ _ _ _ _ _ _ _ _ Hinit)
    as (w & -> & Hw & sl & -> & Hv & _).
  cbn in Hsl. subst sl.
  assert (Hx : sx <> ex).
  { intros E. specialize (Hv E). discriminate. }
  unfold Line.display in Hd. cbn [Line.slope] in Hd.
  rewrite Hf in Hd. cbn [negb] in Hd.
  destruct (Line.collect _ _ _) as [[coords|e]|] eqn:Ec; try discriminate.
  cbn [Line.master Line.color Line.radius] in *.
  unfold Line.collect in Ec.
  cbn [Line.start Line.end_ point Coordinate.x Coordinate.y
       num_sub num_abs num_mul bind] in Ec.
  rewrite num_ltb_int in Ec.
  remember (if sx <? ex then 1 else -1) as step_x eqn:Estep.
  assert (Hr : 0 <= w / 2) by (apply Z.div_pos; lia).
  replace (Int sx) with (Int (sx + 0 * step_x)) in Ec at 1
    by (f_equal; lia).
  change (@nil Coordinate.t)
    with (map (fun p => point (fst p) (snd p)) []) in Ec.
  apply (stepper_count _ _ _ _ _ _ _ (2 * (w / 2) + 1) sx ex) in Ec.
  - destruct Ec as (all & -> & Hlen & Hall).
    rewrite draw_all_points in Hd. injection Hd as <-.
    rewrite length_map. split; [exact Hlen|].
    apply Forall_map. eapply Forall_impl; [|exact Hall].
    cbn. intros p [Hp1 Hp2]. eauto.
  - reflexivity.
  - reflexivity.
  - apply Z.ltb_lt. lia.
  - rewrite py_range_length. cbn [Line.radius]. lia.
  - subst step_x. destruct (sx <? ex); auto.
  - subst step_x. destruct (Z.ltb_spec sx ex); lia.
  - lia.
  - cbn. lia.
  - constructor.
Qed.

Lemma sloped_display_pixel_count_witness :
  Z.of_nat (List.length
              [draw_pixel 1 0 0 0; draw_pixel 1 1 0 0; draw_pixel 1 2 0 0;
               draw_pixel 1 1 1 0; draw_pixel 1 2 1 0; draw_pixel 1 3 1 0;
               draw_pixel 1 2 3 0; draw_pixel 1 3 3 0; draw_pixel 1 4 3 0;
               draw_pixel 1 3 4 0; draw_pixel 1 4 4 0; draw_pixel 1 5 4 0])
  = (Z.abs (1 - 4) + 1) * (2 * 1 + 1)
  /\ Forall (fun k => exists x y,
                 k = draw_pixel 1 x y 0 /\ 0 <= x /\ 0 <= y)
            [draw_pixel 1 0 0 0; draw_pixel 1 1 0 0; draw_pixel 1 2 0 0;
             draw_pixel 1 1 1 0; draw_pixel 1 2 1 0; draw_pixel 1 3 1 0;
             draw_pixel 1 2 3 0; draw_pixel 1 3 3 0; draw_pixel 1 4 3 0;
             draw_pixel 1 3 4 0; draw_pixel 1 4 4 0; draw_pixel 1 5 4 0].
Proof.
  refine (sloped_display_pixel_count
            (Window.mk "w" 1) 1 0 4 4 black (Int 3) false
            (Line.mk (Window.mk "w" 1) (point 1 0) (point 4 4) black 3 1
                     (Some 0x1.5555555555555p+0%float))
            0x1.5555555555555p+0%float 10%nat _ _ _ _ _).
  - vm_compute. reflexivity.
  - reflexivity.
  - reflexivity.
  - vm_compute. reflexivity.
Defined.

(** A thick line of slope above 1 with integer coordinates whose start is
    closer to the left edge than its radius cannot be displayed: the
    first band reaches a negative x, and [display] raises before any call
    is made. *)
Theorem thick_steep_line_at_left_edge_fails
    (m : Window.t) (sx sy ex ey : Z) (c : Color.t) (width : num)
    (aa : bool) (l : Line.t) (f : float) :
  Line.init m (point sx sy) (point ex ey) c width aa = Ok l ->
  Line.slope l = Some f ->
  PrimFloat.eqb f (float_of_const 0) = false ->
  PrimFloat.ltb (float_of_const 1) f = true ->
  sx < Line.radius l ->
  forall fuel, exists e, Line.display (S fuel) l = Failed [] e.
Proof.
  intros Hinit Hsl Hf Hgt Hedge fuel.
  destruct (line_init_ok _ _ _ _ _ _ _ _ _ Hinit)
    as (w & -> & Hw & sl & -> & _ & _).
  cbn in Hsl, Hedge. subst sl.
  unfold Line.display. cbn [Line.slope]. rewrite Hf. cbn [negb].
  unfold Line.collect.
  cbn [Line.start Line.end_ point Coordinate.x Coordinate.y
       num_sub num_abs num_mul bind Line.stepper Line.radius].
  assert (Hr : 0 <= w / 2) by (apply Z.div_pos; lia).
  destruct (py_range_head (- (w / 2)) (w / 2 + 1)) as (rest & ->); [lia|].
  cbn [Line.band].
  destruct (Line.line_y _ _ _) as [y1|e]; cbn [bind]; [|eauto].
  rewrite Hgt. cbn [num_add bind]. unfold Coordinate.init.
  cbn [num_lt]. destruct (Z.ltb_spec (sx + - (w / 2)) 0); [|lia].
  cbn. eauto.
Qed.

Lemma thick_steep_line_at_left_edge_fails_witness :
  exists e,
    Line.display 1
      (Line.mk (Window.mk "w" 1) (point 0 0) (point 2 3) black 3 1
               (Some 1.5%float))
    = Failed [] e.
Proof.
  refine (thick_steep_line_at_left_edge_fails
            (Window.mk "w" 1) 0 0 2 3 black (Int 3) false _ 1.5%float
            _ _ _ _ _ 0%nat).
  - vm_compute. reflexivity.
  - reflexivity.
  - reflexivity.
  - reflexivity.
  - cbn. lia.
Defined.

(** ** Rectangles in general *)

(** Constructing a Rect succeeds for every top-left corner with
    non-negative integer coordinates and strictly positive integer
    width, height and borderwidth; the corners are top_left shifted by
    the width and the height, and each edge joins two adjacent
    corners. *)
Theorem rect_init_succeeds
    (m : Window.t) (x y w h bw : Z) (bc : Color.t)
    (aa fl : bool) (fc : Color.t) :
  0 <= x -> 0 <= y -> 0 < w -> 0 < h -> 0 < bw ->
  exists r,
    Rect.init m (point x y) (Int w) (Int h) bc (Int bw) aa fl fc = Ok r
    /\ Rect.top_left r = point x y
    /\ Rect.top_right r = point (x + w) y
    /\ Rect.bottom_left r = point x (y + h)
    /\ Rect.bottom_right r = point (x + w) (y + h)
    /\ Line.start (Rect.top_edge r) = Rect.top_left r
    /\ Line.end_ (Rect.top_edge r) = Rect.top_right r
    /\ Line.start (Rect.bottom_edge r) = Rect.bottom_left r
    /\ Line.end_ (Rect.bottom_edge r) = Rect.bottom_right r
    /\ Line.start (Rect.left_edge r) = Rect.top_left r
    /\ Line.end_ (Rect.left_edge r) = Rect.bottom_left r
    /\ Line.start (Rect.right_edge r) = Rect.top_right r
    /\ Line.end_ (Rect.right_edge r) = Rect.bottom_right r.
Proof.
  intros Hx Hy Hw Hh Hb.
  destruct (Rect.init m (point x y) (Int w) (Int h) bc (Int bw) aa fl fc)
    as [r|e] eqn:E.
  - exists r. split; [reflexivity|].
    apply rect_init_ok in E.
    destruct E as (w' & h' & bw' & ft & fb & Ew & Eh & Eb
                   & _ & _ & _ & _ & _ & ->).
    injection Ew as <-. injection Eh as <-. injection Eb as <-.
    cbn. repeat split.
  - exfalso. unfold Rect.init in E.
    rewrite !(proj2 (positive_int_ok _ _)) in E by (split; [reflexivity|lia]).
    cbn [bind point Coordinate.x Coordinate.y num_add] in E.
    rewrite !coordinate_init_ok in E by lia. cbn [bind] in E.
    fold (point x y) in E.
    destruct (line_init_horizontal m x (x + w) y bc bw aa Hb)
      as (ft & _ & Et); [lia|].
    destruct (line_init_horizontal m x (x + w) (y + h) bc bw aa Hb)
      as (fb & _ & Eb); [lia|].
    rewrite Et, Eb in E.
    rewrite !line_init_vertical in E by assumption.
    discriminate.
Qed.

Lemma rect_init_succeeds_witness :
  exists r,
    Rect.init (Window.mk "w" 1) (point 2 3) (Int 10) (Int 20) black
              (Int 2) false true black = Ok r
    /\ Rect.top_left r = point 2 3
    /\ Rect.top_right r = point (2 + 10) 3
    /\ Rect.bottom_left r = point 2 (3 + 20)
    /\ Rect.bottom_right r = point (2 + 10) (3 + 20)
    /\ Line.start (Rect.top_edge r) = Rect.top_left r
    /\ Line.end_ (Rect.top_edge r) = Rect.top_right r
    /\ Line.start (Rect.bottom_edge r) = Rect.bottom_left r
    /\ Line.end_ (Rect.bottom_edge r) = Rect.bottom_right r
    /\ Line.start (Rect.left_edge r) = Rect.top_left r
    /\ Line.end_ (Rect.left_edge r) = Rect.bottom_left r
    /\ Line.start (Rect.right_edge r) = Rect.top_right r
    /\ Line.end_ (Rect.right_edge r) = Rect.bottom_right r.
Proof.
  apply (rect_init_succeeds (Window.mk "w" 1) 2 3 10 20 2
           black false true black); lia.
Defined.

(** Calling [change_fill] twice gives the Rect back as it was, so a
    [display] after two calls makes the calls of a [display] before
    them. *)
Theorem change_fill_twice (r : Rect.t) :
  fst (Rect.change_fill (fst (Rect.change_fill r))) = r
  /\ forall fuel,
       Rect.display fuel (fst (Rect.change_fill (fst (Rect.change_fill r))))
       = Rect.display fuel r.
Proof.
  assert (E : fst (Rect.change_fill (fst (Rect.change_fill r))) = r).
  { destruct r. cbn. now rewrite negb_involutive. }
  split; [exact E|]. intros fuel. now rewrite E.
Qed.

(** The antialiasing flag of a Rect changes nothing that is drawn: two
    rectangles built at an integer corner from the same arguments but
    for that flag make the same calls. *)
Theorem rect_display_ignores_antialiasing
    (m : Window.t) (x y : Z) (width height : num) (bc : Color.t)
    (borderwidth : num) (aa1 aa2 fl : bool) (fc : Color.t)
    (r1 r2 : Rect.t) :
  Rect.init m (point x y) width height bc borderwidth aa1 fl fc = Ok r1 ->
  Rect.init m (point x y) width height bc borderwidth aa2 fl fc = Ok r2 ->
  forall fuel1 fuel2, Rect.display fuel1 r1 = Rect.display fuel2 r2.
Proof.
  intros H1 H2 fuel1 fuel2.
  rewrite (proj2 (rect_display_done _ _ _ _ _ _ _ _ _ _ _ fuel1 H1)).
  rewrite (proj2 (rect_display_done _ _ _ _ _ _ _ _ _ _ _ fuel2 H2)).
  apply rect_init_ok in H1, H2.
  destruct H1 as (w & h & bw & ft & fb & -> & -> & ->
                  & _ & _ & _ & _ & _ & ->).
  destruct H2 as (w' & h' & bw' & ft' & fb' & Ew & Eh & Eb
                  & _ & _ & _ & _ & _ & ->).
  injection Ew as <-. injection Eh as <-. injection Eb as <-.
  reflexivity.
Qed.

Lemma rect_display_ignores_antialiasing_witness :
  Rect.display 0
    (Rect.mk (Window.mk "w" 1) 4 4 black 1 true false black
       (point 0 0) (point 4 0) (point 0 4) (point 4 4)
       (Line.mk (Window.mk "w" 1) (point 0 0) (point 4 0)
                black 1 0 (Some 0%float))
       (Line.mk (Window.mk "w" 1) (point 0 4) (point 4 4)
                black 1 0 (Some 0%float))
       (Line.mk (Window.mk "w" 1) (point 0 0) (point 0 4) black 1 0 None)
       (Line.mk (Window.mk "w" 1) (point 4 0) (point 4 4) black 1 0 None))
  = Rect.display 3
    (Rect.mk (Window.mk "w" 1) 4 4 black 1 false false black
       (point 0 0) (point 4 0) (point 0 4) (point 4 4)
       (Line.mk (Window.mk "w" 1) (point 0 0) (point 4 0)
                black 1 0 (Some 0%float))
       (Line.mk (Window.mk "w" 1) (point 0 4) (point 4 4)
                black 1 0 (Some 0%float))
       (Line.mk (Window.mk "w" 1) (point 0 0) (point 0 4) black 1 0 None)
       (Line.mk (Window.mk "w" 1) (point 4 0) (point 4 4) black 1 0 None)).
Proof.
  refine (rect_display_ignores_antialiasing
            (Window.mk "w" 1) 0 0 (Int 4) (Int 4) black
            (Int 1) true false false black _ _ _ _ 0%nat 3%nat).
  - vm_compute. reflexivity.
  - vm_compute. reflexivity.
Defined.
